(** * ts-lombok: the marker-to-plan-to-member pipeline

    A shallow embedding of the transformer of ts-lombok (decorator
    detection, transformation plan, handler registry, member generators,
    class rewriter and tree visitor) together with an evaluator for the
    fragment of JavaScript that the generators emit.

    Layout: the syntax tree, then one block of definitions per source
    file, then the evaluator, then concrete classes, then the theorems. *)

From Stdlib Require Import List String Ascii ZArith Bool Arith Lia.
From Stdlib Require Import Permutation Sorted DecimalString.
Import ListNotations.
Open Scope string_scope.
Open Scope list_scope.

Set Implicit Arguments.
Set Warnings "-register-all".

(* ================================================================= *)
(** ** The syntax tree (the part of [ts.Node] the transformer reads)   *)
(* ================================================================= *)

(** [ts.SyntaxKind], restricted to the kinds that occur in the sources. *)
Inductive SyntaxKind : Type :=
  | ExportKeyword | DefaultKeyword | AbstractKeyword | DeclareKeyword
  | PublicKeyword | PrivateKeyword | ProtectedKeyword
  | StaticKeyword | ReadonlyKeyword | OverrideKeyword | AsyncKeyword
  | StringKeyword | BooleanKeyword | NumberKeyword | VoidKeyword
  | EqualsToken | EqualsEqualsToken | EqualsEqualsEqualsToken
  | AsteriskToken | PlusToken | BarToken | AmpersandAmpersandToken
  | InstanceOfKeyword | ExclamationToken.

Definition SyntaxKind_eq_dec (a b : SyntaxKind) : {a = b} + {a <> b}.
Proof. decide equality. Defined.

Definition kindIs (a b : SyntaxKind) : bool :=
  if SyntaxKind_eq_dec a b then true else false.

(** Type annotations.  Types written by the user are opaque text; the
    other constructors are the type nodes the generators build. *)
Inductive TypeNode : Type :=
  | SourceTypeNode (text : string)
  | KeywordTypeNode (kind : SyntaxKind)
  | TypeReferenceNode (typeName : string)
  | LiteralTypeNodeNull
  | UnionTypeNode (types : list TypeNode).

(** Expressions, as built through [ts.NodeFactory]. *)
Inductive Expression : Type :=
  | Identifier (text : string)
  | This
  | Null
  | True_
  | False_
  | NumericLiteral (value : Z)
  | StringLiteral (text : string)
  | PropertyAccessExpression (expression : Expression) (name : string)
  | BinaryExpression (left : Expression) (operator : SyntaxKind) (right : Expression)
  | PrefixUnaryExpression (operator : SyntaxKind) (operand : Expression)
  | ParenthesizedExpression (expression : Expression)
  | ConditionalExpression (condition whenTrue whenFalse : Expression)
  | TypeOfExpression (expression : Expression)
  | CallExpression (expression : Expression) (arguments : list Expression)
  | NewExpression (expression : Expression) (arguments : list Expression)
  | NoSubstitutionTemplateLiteral (text : string)
  | TemplateExpression (head : string) (templateSpans : list (Expression * string))
  | SourceExpression (text : string).

(** Statements, as built through [ts.NodeFactory]. *)
Inductive Statement : Type :=
  | IfStatement (expression : Expression) (thenStatement : Statement)
  | Block (statements : list Statement)
  | ReturnStatement (expression : Expression)
  | ThrowStatement (expression : Expression)
  | ExpressionStatement (expression : Expression).

(** A decorator is [@expression]. *)
Record Decorator : Type := mkDecorator { decoratorExpression : Expression }.

(** [ts.ModifierLike]: the [modifiers] array of a declaration holds its
    decorators and its keyword modifiers, in source order. *)
Inductive ModifierLike : Type :=
  | DecoratorNode (d : Decorator)
  | Modifier (kind : SyntaxKind).

(** [ts.PropertyName]: an identifier, or any other form of name (string
    or numeric literal, computed name, private identifier). *)
Inductive PropertyName : Type :=
  | IdentifierName (text : string)
  | OtherName (source : string).

Record ParameterDeclaration : Type := mkParameter {
  parameterName : string;
  parameterType : option TypeNode
}.

(** Nodes.  A class member is a node; bodies hold nodes, so that class
    declarations can occur below a class.  [StatementNode] and
    [ExpressionNode] wrap the statements and expressions the generators
    emit; [OtherNode] is every other syntax (source file, function,
    user-written statement or initializer, accessor, ...). *)
Inductive Node : Type :=
  | ClassDeclaration (modifiers : list ModifierLike) (name : option string)
      (typeParameters : option string) (heritageClauses : option string)
      (members : list Node)
  | PropertyDeclaration (modifiers : list ModifierLike) (name : PropertyName)
      (questionToken : bool) (type : option TypeNode) (initializer : option Node)
  | ConstructorDeclaration (modifiers : list ModifierLike)
      (parameters : list ParameterDeclaration) (body : list Node)
  | MethodDeclaration (modifiers : list ModifierLike) (name : PropertyName)
      (parameters : list ParameterDeclaration) (type : option TypeNode)
      (body : list Node)
  | OtherNode (kind : string) (children : list Node)
  | StatementNode (statement : Statement)
  | ExpressionNode (expression : Expression).

Definition isClassDeclaration (n : Node) : bool :=
  match n with ClassDeclaration _ _ _ _ _ => true | _ => false end.

Definition isPropertyDeclaration (n : Node) : bool :=
  match n with PropertyDeclaration _ _ _ _ _ => true | _ => false end.

Definition isConstructorDeclaration (n : Node) : bool :=
  match n with ConstructorDeclaration _ _ _ => true | _ => false end.

Definition isMethodDeclaration (n : Node) : bool :=
  match n with MethodDeclaration _ _ _ _ _ => true | _ => false end.

(** [node.modifiers] ([undefined] is the empty list). *)
Definition nodeModifiers (n : Node) : list ModifierLike :=
  match n with
  | ClassDeclaration ms _ _ _ _ => ms
  | PropertyDeclaration ms _ _ _ _ => ms
  | ConstructorDeclaration ms _ _ => ms
  | MethodDeclaration ms _ _ _ _ => ms
  | _ => []
  end.

Definition classMembers (n : Node) : list Node :=
  match n with ClassDeclaration _ _ _ _ ms => ms | _ => [] end.

(** [ts.getModifiers]: the keyword modifiers of a node. *)
Definition ts_getModifiers (n : Node) : list SyntaxKind :=
  flat_map (fun m => match m with Modifier k => [k] | DecoratorNode _ => [] end)
           (nodeModifiers n).

(** [ts.getDecorators]: the decorators of a node. *)
Definition ts_getDecorators (n : Node) : list Decorator :=
  flat_map (fun m => match m with DecoratorNode d => [d] | Modifier _ => [] end)
           (nodeModifiers n).

(** [ts.canHaveDecorators]. *)
Definition ts_canHaveDecorators (n : Node) : bool :=
  match n with
  | ClassDeclaration _ _ _ _ _ | PropertyDeclaration _ _ _ _ _
  | MethodDeclaration _ _ _ _ _ => true
  | _ => false
  end.

(** [Array.prototype.includes] on an array of strings. *)
Definition includes (l : list string) (s : string) : bool :=
  existsb (String.eqb s) l.

(* ================================================================= *)
(** ** utils/decorator-utils.ts                                        *)
(* ================================================================= *)

Definition KNOWN_CLASS_DECORATORS : list string :=
  [ "Record"; "Value"; "Equals"; "With";
    "Getter"; "Setter"; "ToString"; "Data"; "Builder";
    "NoArgsConstructor"; "AllArgsConstructor"; "RequiredArgsConstructor";
    "Log"; "Singleton" ].

Definition KNOWN_PROPERTY_DECORATORS : list string :=
  [ "NonNull"; "Getter"; "Setter" ].

Definition KNOWN_METHOD_DECORATORS : list string := [ "Memoize"; "Autobind" ].

Definition KNOWN_DECORATORS : list string :=
  KNOWN_CLASS_DECORATORS ++ KNOWN_PROPERTY_DECORATORS ++ KNOWN_METHOD_DECORATORS.

Definition getDecorators (n : Node) : list Decorator :=
  if negb (ts_canHaveDecorators n) then [] else ts_getDecorators n.

Definition getDecoratorName (d : Decorator) : option string :=
  match decoratorExpression d with
  | Identifier text => Some text
  | CallExpression (Identifier text) _ => Some text
  | _ => None
  end.

Definition hasDecorator (n : Node) (decoratorName : string) : bool :=
  existsb (fun d => match getDecoratorName d with
                    | Some nm => String.eqb nm decoratorName
                    | None => false
                    end) (getDecorators n).

Definition isKnownDecorator (d : Decorator) : bool :=
  match getDecoratorName d with
  | Some nm => includes KNOWN_CLASS_DECORATORS nm
  | None => false
  end.

Definition isKnownPropertyDecorator (d : Decorator) : bool :=
  match getDecoratorName d with
  | Some nm => includes KNOWN_PROPERTY_DECORATORS nm
  | None => false
  end.

(** [decorators.map(getDecoratorName).filter(known)]. *)
Definition getKnownDecorators (n : Node) : list string :=
  flat_map (fun o => match o with
                     | Some nm => if includes KNOWN_CLASS_DECORATORS nm then [nm] else []
                     | None => []
                     end)
           (map getDecoratorName (getDecorators n)).

(** The result [undefined] is the empty list. *)
Definition removeKnownDecorators (n : Node) : list ModifierLike :=
  let decorators := getDecorators n in
  let modifiers := ts_getModifiers n in
  let remainingDecorators := filter (fun d => negb (isKnownDecorator d)) decorators in
  if (List.length remainingDecorators =? 0)%nat && (List.length modifiers =? 0)%nat then []
  else map DecoratorNode remainingDecorators ++ map Modifier modifiers.

Record PropertyInfo : Type := mkPropertyInfo {
  propName : string;
  propType : option TypeNode;
  isOptional : bool;
  isReadonly : bool;
  hasInitializer : bool;
  isPrivate : bool;
  isNonNull : bool;
  hasGetter : bool;
  hasSetter : bool;
  propModifiers : list ModifierLike;
  propDecorators : list string
}.

(** The names of the decorators that have one. *)
Definition decoratorNamesOf (ds : list Decorator) : list string :=
  flat_map (fun o => match o with Some nm => [nm] | None => [] end)
           (map getDecoratorName ds).

(** One iteration of the loop of [getClassProperties]: the descriptor
    pushed for [member], if any. *)
Definition propertyInfoOf (member : Node) : option PropertyInfo :=
  match member with
  | PropertyDeclaration _ (IdentifierName text) question ty init =>
      let modifiers := ts_getModifiers member in
      let propertyDecorators := ts_getDecorators member in
      let isStatic := existsb (kindIs StaticKeyword) modifiers in
      if isStatic then None
      else
        let decoratorNames := decoratorNamesOf propertyDecorators in
        Some {| propName := text;
                propType := ty;
                isOptional := question;
                isReadonly := existsb (kindIs ReadonlyKeyword) modifiers;
                hasInitializer := match init with Some _ => true | None => false end;
                isPrivate := existsb (kindIs PrivateKeyword) modifiers;
                isNonNull := includes decoratorNames "NonNull";
                hasGetter := includes decoratorNames "Getter";
                hasSetter := includes decoratorNames "Setter";
                propModifiers := map DecoratorNode propertyDecorators ++ map Modifier modifiers;
                propDecorators := decoratorNames |}
  | _ => None
  end.

Definition getClassProperties (n : Node) : list PropertyInfo :=
  fold_left (fun properties member =>
               match propertyInfoOf member with
               | Some info => properties ++ [info]
               | None => properties
               end)
            (classMembers n) [].

Definition getRequiredProperties (properties : list PropertyInfo) : list PropertyInfo :=
  filter (fun p => negb (isOptional p) && negb (hasInitializer p)) properties.

Definition getNonNullProperties (properties : list PropertyInfo) : list PropertyInfo :=
  filter (fun p => isNonNull p) properties.

Definition hasConstructor (n : Node) : bool :=
  existsb isConstructorDeclaration (classMembers n).

Definition getConstructor (n : Node) : option Node :=
  find isConstructorDeclaration (classMembers n).

Definition hasMethod (n : Node) (methodName : string) : bool :=
  existsb (fun m => match m with
                    | MethodDeclaration _ (IdentifierName text) _ _ _ =>
                        String.eqb text methodName
                    | _ => false
                    end) (classMembers n).

(* ================================================================= *)
(** ** utils/ast-helpers.ts                                            *)
(* ================================================================= *)

Definition createConstructorParameter (name : string) (type : option TypeNode)
  : ParameterDeclaration :=
  {| parameterName := name; parameterType := type |}.

(** [this.name = name;] *)
Definition createPropertyAssignment (propertyName : string) : Statement :=
  ExpressionStatement
    (BinaryExpression
       (PropertyAccessExpression This propertyName)
       EqualsToken
       (Identifier propertyName)).

(** [Object.freeze(this);] *)
Definition createFreezeStatement : Statement :=
  ExpressionStatement
    (CallExpression
       (PropertyAccessExpression (Identifier "Object") "freeze")
       [This]).

Definition createReadonlyProperty (name : string) (type : option TypeNode)
           (modifiers : list SyntaxKind) : Node :=
  let allModifiers := Modifier ReadonlyKeyword :: map Modifier modifiers in
  PropertyDeclaration allModifiers (IdentifierName name) false type None.

Definition createMethodDeclaration (name : string)
           (parameters : list ParameterDeclaration)
           (returnType : option TypeNode) (body : Statement)
           (modifiers : list SyntaxKind) : Node :=
  MethodDeclaration (map Modifier modifiers) (IdentifierName name)
                    parameters returnType [StatementNode body].

Definition createReturnStatement (expression : Expression) : Statement :=
  ReturnStatement expression.

(** The spans pushed by the [forEach] of [createToStringTemplateLiteral]:
    the span of a field ends with [")"] when the field is the last one and
    with [", <next>="] otherwise. *)
Fixpoint toStringSpans (fieldNames : list string) : list (Expression * string) :=
  match fieldNames with
  | [] => []
  | fieldName :: rest =>
      let literal :=
        match rest with
        | [] => ")"
        | next :: _ => String.append ", " (String.append next "=")
        end in
      (PropertyAccessExpression This fieldName, literal) :: toStringSpans rest
  end.

Definition createToStringTemplateLiteral (className : string)
           (fieldNames : list string) : Expression :=
  match fieldNames with
  | [] => NoSubstitutionTemplateLiteral (String.append className "()")
  | first :: _ =>
      TemplateExpression
        (String.append className (String.append "(" (String.append first "=")))
        (toStringSpans fieldNames)
  end.

(** [this.f == null ? 0 : typeof this.f === 'number' ? this.f : String(this.f).length] *)
Definition createFieldHashExpression (fieldName : string) : Expression :=
  let fieldAccess := PropertyAccessExpression This fieldName in
  ConditionalExpression
    (BinaryExpression fieldAccess EqualsEqualsToken Null)
    (NumericLiteral 0)
    (ConditionalExpression
       (BinaryExpression (TypeOfExpression fieldAccess)
                         EqualsEqualsEqualsToken
                         (StringLiteral "number"))
       fieldAccess
       (PropertyAccessExpression
          (CallExpression (Identifier "String") [fieldAccess])
          "length")).

Definition createHashCodeComputation (fieldNames : list string) : Expression :=
  match fieldNames with
  | [] => NumericLiteral 0
  | first :: rest =>
      let result :=
        fold_left
          (fun result fieldName =>
             BinaryExpression
               (BinaryExpression result AsteriskToken (NumericLiteral 31))
               PlusToken
               (createFieldHashExpression fieldName))
          rest
          (createFieldHashExpression first) in
      BinaryExpression result BarToken (NumericLiteral 0)
  end.

Definition createEqualityCheck (fieldNames : list string) (otherParam : string)
  : Expression :=
  match fieldNames with
  | [] => True_
  | _ :: _ =>
      let checks :=
        map (fun fieldName =>
               BinaryExpression
                 (PropertyAccessExpression This fieldName)
                 EqualsEqualsEqualsToken
                 (PropertyAccessExpression (Identifier otherParam) fieldName))
            fieldNames in
      (* [checks.reduce(f)] without an initial value *)
      match checks with
      | [] => True_
      | first :: rest =>
          fold_left
            (fun acc check => BinaryExpression acc AmpersandAmpersandToken check)
            rest first
      end
  end.

Definition createNewInstance (className : string) (args : list Expression)
  : Expression :=
  NewExpression (Identifier className) args.

(** [String.prototype.toUpperCase] on one character (ASCII letters). *)
Definition toUpperCaseChar (c : ascii) : ascii :=
  let n := nat_of_ascii c in
  if (97 <=? n)%nat && (n <=? 122)%nat then ascii_of_nat (n - 32) else c.

(** [str.charAt(0).toUpperCase() + str.slice(1)] *)
Definition capitalize (str : string) : string :=
  match str with
  | EmptyString => EmptyString
  | String c rest => String (toUpperCaseChar c) rest
  end.

(* ================================================================= *)
(** ** transformer/context.ts                                          *)
(* ================================================================= *)

Inductive ConstructorType : Type := none | all | required.

Record TransformationPlan : Type := mkPlan {
  classDeclaration : Node;
  className : string;
  properties : list PropertyInfo;
  decorators : list string;
  generateConstructor : bool;
  constructorType : ConstructorType;
  freezeInstance : bool;
  makeReadonly : bool;
  generateToString : bool;
  generateEquals : bool;
  generateHashCode : bool;
  generateWithMethods : bool;
  generateGetters : bool;
  generateSetters : bool;
  generateBuilder : bool;
  generateLog : bool;
  generateSingleton : bool;
  validateNonNull : bool;
  additionalMembers : list Node
}.

(** [classDeclaration.name?.text || 'Anonymous']: the empty string is
    falsy as well. *)
Definition classNameOf (n : Node) : string :=
  match n with
  | ClassDeclaration _ (Some text) _ _ _ =>
      if String.eqb text "" then "Anonymous" else text
  | _ => "Anonymous"
  end.

Definition createDefaultPlan (classDecl : Node) (props : list PropertyInfo)
  : TransformationPlan :=
  let hasNonNull := existsb (fun p => isNonNull p) props in
  {| classDeclaration := classDecl;
     className := classNameOf classDecl;
     properties := props;
     decorators := [];
     generateConstructor := false;
     constructorType := all;
     freezeInstance := false;
     makeReadonly := false;
     generateToString := false;
     generateEquals := false;
     generateHashCode := false;
     generateWithMethods := false;
     generateGetters := false;
     generateSetters := false;
     generateBuilder := false;
     generateLog := false;
     generateSingleton := false;
     validateNonNull := hasNonNull;
     additionalMembers := [] |}.

(** Field assignments [plan.f = v], one per field a handler writes. *)
Definition set_decorators (v : list string) (p : TransformationPlan) :=
  let (a, b, c, _, e, f, g, h, i, j, k, l, m, n, o, q, r, s, t) := p in
  mkPlan a b c v e f g h i j k l m n o q r s t.
Definition set_generateConstructor (v : bool) (p : TransformationPlan) :=
  let (a, b, c, d, _, f, g, h, i, j, k, l, m, n, o, q, r, s, t) := p in
  mkPlan a b c d v f g h i j k l m n o q r s t.
Definition set_constructorType (v : ConstructorType) (p : TransformationPlan) :=
  let (a, b, c, d, e, _, g, h, i, j, k, l, m, n, o, q, r, s, t) := p in
  mkPlan a b c d e v g h i j k l m n o q r s t.
Definition set_freezeInstance (v : bool) (p : TransformationPlan) :=
  let (a, b, c, d, e, f, _, h, i, j, k, l, m, n, o, q, r, s, t) := p in
  mkPlan a b c d e f v h i j k l m n o q r s t.
Definition set_makeReadonly (v : bool) (p : TransformationPlan) :=
  let (a, b, c, d, e, f, g, _, i, j, k, l, m, n, o, q, r, s, t) := p in
  mkPlan a b c d e f g v i j k l m n o q r s t.
Definition set_generateToString (v : bool) (p : TransformationPlan) :=
  let (a, b, c, d, e, f, g, h, _, j, k, l, m, n, o, q, r, s, t) := p in
  mkPlan a b c d e f g h v j k l m n o q r s t.
Definition set_generateEquals (v : bool) (p : TransformationPlan) :=
  let (a, b, c, d, e, f, g, h, i, _, k, l, m, n, o, q, r, s, t) := p in
  mkPlan a b c d e f g h i v k l m n o q r s t.
Definition set_generateHashCode (v : bool) (p : TransformationPlan) :=
  let (a, b, c, d, e, f, g, h, i, j, _, l, m, n, o, q, r, s, t) := p in
  mkPlan a b c d e f g h i j v l m n o q r s t.
Definition set_generateWithMethods (v : bool) (p : TransformationPlan) :=
  let (a, b, c, d, e, f, g, h, i, j, k, _, m, n, o, q, r, s, t) := p in
  mkPlan a b c d e f g h i j k v m n o q r s t.
Definition set_generateGetters (v : bool) (p : TransformationPlan) :=
  let (a, b, c, d, e, f, g, h, i, j, k, l, _, n, o, q, r, s, t) := p in
  mkPlan a b c d e f g h i j k l v n o q r s t.
Definition set_generateSetters (v : bool) (p : TransformationPlan) :=
  let (a, b, c, d, e, f, g, h, i, j, k, l, m, _, o, q, r, s, t) := p in
  mkPlan a b c d e f g h i j k l m v o q r s t.
Definition set_generateBuilder (v : bool) (p : TransformationPlan) :=
  let (a, b, c, d, e, f, g, h, i, j, k, l, m, n, _, q, r, s, t) := p in
  mkPlan a b c d e f g h i j k l m n v q r s t.
Definition set_generateLog (v : bool) (p : TransformationPlan) :=
  let (a, b, c, d, e, f, g, h, i, j, k, l, m, n, o, _, r, s, t) := p in
  mkPlan a b c d e f g h i j k l m n o v r s t.
Definition set_generateSingleton (v : bool) (p : TransformationPlan) :=
  let (a, b, c, d, e, f, g, h, i, j, k, l, m, n, o, q, _, s, t) := p in
  mkPlan a b c d e f g h i j k l m n o q v s t.

(** [TransformationContext.createPlan] *)
Definition createPlan (classDecl : Node) (props : list PropertyInfo)
           (decoratorNames : list string) : TransformationPlan :=
  let plan := createDefaultPlan classDecl props in
  set_decorators decoratorNames plan.

(* ================================================================= *)
(** ** generators/method-generator.ts                                  *)
(* ================================================================= *)

Module MethodGenerator.

Definition generateToString (plan : TransformationPlan) : Node :=
  let fieldNames := map propName (properties plan) in
  let templateLiteral := createToStringTemplateLiteral (className plan) fieldNames in
  let body := Block [createReturnStatement templateLiteral] in
  createMethodDeclaration "toString" [] (Some (KeywordTypeNode StringKeyword)) body [].

Definition generateEquals (plan : TransformationPlan) : Node :=
  let otherParam := "other" in
  let fieldNames := map propName (properties plan) in
  let statements :=
    [ (* if (other == null) return false; *)
      IfStatement
        (BinaryExpression (Identifier otherParam) EqualsEqualsToken Null)
        (ReturnStatement False_);
      (* if (this === other) return true; *)
      IfStatement
        (BinaryExpression This EqualsEqualsEqualsToken (Identifier otherParam))
        (ReturnStatement True_);
      (* if (!(other instanceof ClassName)) return false; *)
      IfStatement
        (PrefixUnaryExpression ExclamationToken
           (ParenthesizedExpression
              (BinaryExpression (Identifier otherParam) InstanceOfKeyword
                                (Identifier (className plan)))))
        (ReturnStatement False_);
      (* return this.field === other.field && ...; *)
      createReturnStatement (createEqualityCheck fieldNames otherParam) ] in
  let body := Block statements in
  let parameter :=
    {| parameterName := otherParam;
       parameterType := Some (TypeReferenceNode (className plan)) |} in
  createMethodDeclaration "equals" [parameter]
                          (Some (KeywordTypeNode BooleanKeyword)) body [].

Definition generateHashCode (plan : TransformationPlan) : Node :=
  let fieldNames := map propName (properties plan) in
  let hashExpression := createHashCodeComputation fieldNames in
  let body := Block [createReturnStatement hashExpression] in
  createMethodDeclaration "hashCode" [] (Some (KeywordTypeNode NumberKeyword)) body [].

Definition generateWithMethod (plan : TransformationPlan)
           (propertyName : string) (propertyType : option TypeNode) : Node :=
  let methodName := String.append "with" (capitalize propertyName) in
  let constructorArgs :=
    map (fun p =>
           if String.eqb (propName p) propertyName
           then Identifier propertyName
           else PropertyAccessExpression This (propName p))
        (properties plan) in
  let newInstance := createNewInstance (className plan) constructorArgs in
  let body := Block [createReturnStatement newInstance] in
  let parameter :=
    {| parameterName := propertyName; parameterType := propertyType |} in
  createMethodDeclaration methodName [parameter]
                          (Some (TypeReferenceNode (className plan))) body [].

Definition generateWithMethods (plan : TransformationPlan) : list Node :=
  map (fun prop => generateWithMethod plan (propName prop) (propType prop))
      (properties plan).

Definition generateGetters (plan : TransformationPlan) : list Node :=
  map (fun prop =>
         let methodName := String.append "get" (capitalize (propName prop)) in
         let body :=
           Block [ReturnStatement (PropertyAccessExpression This (propName prop))] in
         createMethodDeclaration methodName [] (propType prop) body [])
      (properties plan).

Definition generateSetters (plan : TransformationPlan) : list Node :=
  map (fun prop =>
         let methodName := String.append "set" (capitalize (propName prop)) in
         let parameter :=
           {| parameterName := propName prop; parameterType := propType prop |} in
         let body :=
           Block [ExpressionStatement
                    (BinaryExpression
                       (PropertyAccessExpression This (propName prop))
                       EqualsToken
                       (Identifier (propName prop)))] in
         createMethodDeclaration methodName [parameter]
                                 (Some (KeywordTypeNode VoidKeyword)) body [])
      (filter (fun prop => negb (isReadonly prop)) (properties plan)).

Definition generateBuilder (plan : TransformationPlan) : list Node :=
  let builderType := String.append (className plan) "Builder" in
  let builderMethod :=
    MethodDeclaration [Modifier StaticKeyword] (IdentifierName "builder") []
      (Some (TypeReferenceNode builderType))
      [StatementNode
         (Block [ReturnStatement (NewExpression (Identifier builderType) [])])] in
  [] ++ [builderMethod].

Definition generateSingleton (plan : TransformationPlan) : list Node :=
  (* private static instance: ClassName | null = null; *)
  let instanceField :=
    PropertyDeclaration
      [Modifier PrivateKeyword; Modifier StaticKeyword]
      (IdentifierName "instance") false
      (Some (UnionTypeNode [TypeReferenceNode (className plan); LiteralTypeNodeNull]))
      (Some (ExpressionNode Null)) in
  let instanceAccess :=
    PropertyAccessExpression (Identifier (className plan)) "instance" in
  (* static getInstance(): ClassName *)
  let getInstanceMethod :=
    MethodDeclaration [Modifier StaticKeyword] (IdentifierName "getInstance") []
      (Some (TypeReferenceNode (className plan)))
      [StatementNode
         (Block
            [ IfStatement
                (PrefixUnaryExpression ExclamationToken instanceAccess)
                (Block
                   [ExpressionStatement
                      (BinaryExpression instanceAccess EqualsToken
                         (NewExpression (Identifier (className plan)) []))]);
              ReturnStatement instanceAccess ])] in
  ([] ++ [instanceField]) ++ [getInstanceMethod].

(** [protected readonly log = console;] *)
Definition generateLog (_plan : TransformationPlan) : list Node :=
  let logField :=
    PropertyDeclaration
      [Modifier ProtectedKeyword; Modifier ReadonlyKeyword]
      (IdentifierName "log") false None
      (Some (ExpressionNode (Identifier "console"))) in
  [logField].

(** [if (p == null) { throw new Error('p cannot be null or undefined'); }] *)
Definition generateNonNullValidation (propertyName : string) : Statement :=
  IfStatement
    (BinaryExpression (Identifier propertyName) EqualsEqualsToken Null)
    (Block
       [ThrowStatement
          (NewExpression (Identifier "Error")
             [StringLiteral
                (String.append propertyName " cannot be null or undefined")])]).

End MethodGenerator.

(* ================================================================= *)
(** ** generators/freeze-generator.ts                                  *)
(* ================================================================= *)

Definition generateFreezeStatement : Statement := createFreezeStatement.

(* ================================================================= *)
(** ** generators/constructor-generator.ts                             *)
(* ================================================================= *)

Module ConstructorGenerator.

Definition getConstructorProperties (plan : TransformationPlan)
  : list PropertyInfo :=
  match constructorType plan with
  | none => []
  | required =>
      filter (fun p => negb (isOptional p) && negb (hasInitializer p))
             (properties plan)
  | all => properties plan
  end.

(** The loop that fills [validations]. *)
Definition nonNullValidations (plan : TransformationPlan)
           (constructorProps : list PropertyInfo) : list Statement :=
  if validateNonNull plan then
    fold_left
      (fun validations prop =>
         if isNonNull prop
         then validations ++ [MethodGenerator.generateNonNullValidation (propName prop)]
         else validations)
      constructorProps []
  else [].

(** The statements of the generated constructor body. *)
Definition constructorBody (plan : TransformationPlan)
           (additionalStatements : list Statement) : list Statement :=
  let constructorProps := getConstructorProperties plan in
  let validations := nonNullValidations plan constructorProps in
  let assignments :=
    map (fun prop => createPropertyAssignment (propName prop)) constructorProps in
  validations ++ assignments ++ additionalStatements.

Definition shouldGenerateConstructor (plan : TransformationPlan) : bool :=
  if negb (generateConstructor plan) then false
  else match constructorType plan with
       | none => true
       | _ => true
       end.

Definition generateConstructor (plan : TransformationPlan)
           (additionalStatements : list Statement) : Node :=
  let constructorProps := getConstructorProperties plan in
  let parameters :=
    map (fun prop => createConstructorParameter (propName prop) (propType prop))
        constructorProps in
  let body := Block (constructorBody plan additionalStatements) in
  ConstructorDeclaration [] parameters [StatementNode body].

End ConstructorGenerator.

(* ================================================================= *)
(** ** handlers/base-handler.ts and handlers/index.ts                  *)
(* ================================================================= *)

Record DecoratorHandler : Type := mkHandler {
  decoratorName : string;
  priority : Z;
  modifyPlan : TransformationPlan -> TransformationPlan;
  generateMembers : TransformationPlan -> list Node
}.

Definition RecordHandler : DecoratorHandler :=
  {| decoratorName := "Record";
     priority := 100;
     modifyPlan := fun plan =>
       set_generateToString true
         (set_makeReadonly true
            (set_freezeInstance true
               (set_constructorType all
                  (set_generateConstructor true plan))));
     generateMembers := fun plan =>
       [] ++ (if generateToString plan
              then [MethodGenerator.generateToString plan] else []) |}.

Definition ValueHandler : DecoratorHandler :=
  {| decoratorName := "Value";
     priority := 100;
     modifyPlan := fun plan =>
       set_generateToString true
         (set_makeReadonly true
            (set_freezeInstance true
               (set_constructorType all
                  (set_generateConstructor true plan))));
     generateMembers := fun plan =>
       [] ++ (if generateToString plan
              then [MethodGenerator.generateToString plan] else []) |}.

Definition EqualsHandler : DecoratorHandler :=
  {| decoratorName := "Equals";
     priority := 70;
     modifyPlan := fun plan =>
       set_generateHashCode true (set_generateEquals true plan);
     generateMembers := fun plan =>
       ([] ++ (if generateEquals plan
               then [MethodGenerator.generateEquals plan] else []))
          ++ (if generateHashCode plan
              then [MethodGenerator.generateHashCode plan] else []) |}.

Definition WithHandler : DecoratorHandler :=
  {| decoratorName := "With";
     priority := 70;
     modifyPlan := fun plan => set_generateWithMethods true plan;
     generateMembers := fun plan =>
       if generateWithMethods plan
       then MethodGenerator.generateWithMethods plan else [] |}.

Definition GetterHandler : DecoratorHandler :=
  {| decoratorName := "Getter";
     priority := 80;
     modifyPlan := fun plan => set_generateGetters true plan;
     generateMembers := fun plan =>
       if generateGetters plan
       then MethodGenerator.generateGetters plan else [] |}.

Definition SetterHandler : DecoratorHandler :=
  {| decoratorName := "Setter";
     priority := 80;
     modifyPlan := fun plan => set_generateSetters true plan;
     generateMembers := fun plan =>
       if generateSetters plan
       then MethodGenerator.generateSetters plan else [] |}.

Definition ToStringHandler : DecoratorHandler :=
  {| decoratorName := "ToString";
     priority := 70;
     modifyPlan := fun plan => set_generateToString true plan;
     generateMembers := fun plan =>
       if generateToString plan
       then [MethodGenerator.generateToString plan] else [] |}.

Definition DataHandler : DecoratorHandler :=
  {| decoratorName := "Data";
     priority := 100;
     modifyPlan := fun plan =>
       set_generateHashCode true
         (set_generateEquals true
            (set_generateToString true
               (set_generateSetters true
                  (set_generateGetters true
                     (set_constructorType all
                        (set_generateConstructor true plan))))));
     generateMembers := fun plan =>
       (((([] ++ (if generateToString plan
                  then [MethodGenerator.generateToString plan] else []))
            ++ (if generateEquals plan
                then [MethodGenerator.generateEquals plan] else []))
           ++ (if generateHashCode plan
               then [MethodGenerator.generateHashCode plan] else []))
          ++ (if generateGetters plan
              then MethodGenerator.generateGetters plan else []))
         ++ (if generateSetters plan
             then MethodGenerator.generateSetters plan else []) |}.

Definition BuilderHandler : DecoratorHandler :=
  {| decoratorName := "Builder";
     priority := 90;
     modifyPlan := fun plan =>
       set_constructorType all
         (set_generateConstructor true (set_generateBuilder true plan));
     generateMembers := fun plan =>
       if generateBuilder plan
       then MethodGenerator.generateBuilder plan else [] |}.

Definition NoArgsConstructorHandler : DecoratorHandler :=
  {| decoratorName := "NoArgsConstructor";
     priority := 95;
     modifyPlan := fun plan =>
       set_constructorType none (set_generateConstructor true plan);
     generateMembers := fun _ => [] |}.

Definition AllArgsConstructorHandler : DecoratorHandler :=
  {| decoratorName := "AllArgsConstructor";
     priority := 95;
     modifyPlan := fun plan =>
       set_constructorType all (set_generateConstructor true plan);
     generateMembers := fun _ => [] |}.

Definition RequiredArgsConstructorHandler : DecoratorHandler :=
  {| decoratorName := "RequiredArgsConstructor";
     priority := 95;
     modifyPlan := fun plan =>
       set_constructorType required (set_generateConstructor true plan);
     generateMembers := fun _ => [] |}.

Definition LogHandler : DecoratorHandler :=
  {| decoratorName := "Log";
     priority := 60;
     modifyPlan := fun plan => set_generateLog true plan;
     generateMembers := fun plan =>
       if generateLog plan then MethodGenerator.generateLog plan else [] |}.

Definition SingletonHandler : DecoratorHandler :=
  {| decoratorName := "Singleton";
     priority := 100;
     modifyPlan := fun plan => set_generateSingleton true plan;
     generateMembers := fun plan =>
       if generateSingleton plan
       then MethodGenerator.generateSingleton plan else [] |}.

(** [Array.prototype.sort(compareFn)].  ECMAScript requires the sort to be
    stable; a stable insertion sort stands for it: an element goes before
    the first element it does not compare greater than. *)
Section ArraySort.
Variable A : Type.
Variable compareFn : A -> A -> Z.

Fixpoint insertSorted (x : A) (l : list A) : list A :=
  match l with
  | [] => [x]
  | y :: ys =>
      if (compareFn x y <=? 0)%Z then x :: y :: ys
      else y :: insertSorted x ys
  end.

Fixpoint Array_sort (l : list A) : list A :=
  match l with
  | [] => []
  | x :: xs => insertSorted x (Array_sort xs)
  end.
End ArraySort.

(** The registry is a JavaScript [Map]: keys are kept in insertion order
    and [set] on a key that is present replaces its value in place. *)
Module HandlerRegistry.

Definition t : Type := list (string * DecoratorHandler).

Fixpoint Map_set (handlers : t) (key : string) (value : DecoratorHandler) : t :=
  match handlers with
  | [] => [(key, value)]
  | (k, v) :: rest =>
      if String.eqb k key then (k, value) :: rest
      else (k, v) :: Map_set rest key value
  end.

Fixpoint Map_get (handlers : t) (key : string) : option DecoratorHandler :=
  match handlers with
  | [] => None
  | (k, v) :: rest => if String.eqb k key then Some v else Map_get rest key
  end.

Definition register (handlers : t) (handler : DecoratorHandler) : t :=
  Map_set handlers (decoratorName handler) handler.

Definition registerDefaults (handlers : t) : t :=
  fold_left register
    [ RecordHandler; ValueHandler; EqualsHandler; WithHandler;
      GetterHandler; SetterHandler; ToStringHandler; DataHandler;
      BuilderHandler; NoArgsConstructorHandler; AllArgsConstructorHandler;
      RequiredArgsConstructorHandler; LogHandler; SingletonHandler ]
    handlers.

(** [new HandlerRegistry()] *)
Definition new : t := registerDefaults [].

Definition get (handlers : t) (name : string) : option DecoratorHandler :=
  Map_get handlers name.

Definition has (handlers : t) (name : string) : bool :=
  match Map_get handlers name with Some _ => true | None => false end.

Definition getHandlersForDecorators (handlers : t) (decoratorNames : list string)
  : list DecoratorHandler :=
  let selected :=
    flat_map (fun o => match o with Some h => [h] | None => [] end)
             (map (Map_get handlers) decoratorNames) in
  (* Sort by priority (higher priority first) *)
  Array_sort (fun a b => (priority b - priority a)%Z) selected.

End HandlerRegistry.

(** The exported singleton instance. *)
Definition handlerRegistry : HandlerRegistry.t := HandlerRegistry.new.

(* ================================================================= *)
(** ** transformer/visitor.ts                                          *)
(* ================================================================= *)

(** [factory.updatePropertyDeclaration(property, modifiers, property.name,
    property.questionToken, property.type, property.initializer)] *)
Definition updatePropertyModifiers (property : Node)
           (newModifiers : list ModifierLike) : Node :=
  match property with
  | PropertyDeclaration _ nm question ty init =>
      PropertyDeclaration newModifiers nm question ty init
  | _ => property
  end.

Definition stripPropertyDecorators (property : Node) : Node :=
  let existingModifiers := ts_getModifiers property in
  let existingDecorators := ts_getDecorators property in
  (* Filter out known property decorators *)
  let remainingDecorators :=
    filter (fun d => match getDecoratorName d with
                     | None => true
                     | Some nm => negb (includes KNOWN_PROPERTY_DECORATORS nm)
                     end)
           existingDecorators in
  (* If no decorators were removed, return original *)
  if (List.length remainingDecorators =? List.length existingDecorators)%nat
  then property
  else
    let newModifiers :=
      map DecoratorNode remainingDecorators ++ map Modifier existingModifiers in
    updatePropertyModifiers property newModifiers.

Definition makePropertyReadonly (property : Node) : Node :=
  let existingModifiers := ts_getModifiers property in
  let existingDecorators := ts_getDecorators property in
  let hasReadonly := existsb (kindIs ReadonlyKeyword) existingModifiers in
  if hasReadonly then property
  else
    let newModifiers :=
      map DecoratorNode existingDecorators
          ++ [Modifier ReadonlyKeyword]
          ++ map Modifier existingModifiers in
    updatePropertyModifiers property newModifiers.

(** The first loop of [executeTransformation]: what one original member
    contributes to [newMembers]. *)
Definition copyMember (plan : TransformationPlan) (newMembers : list Node)
           (member : Node) : list Node :=
  if isPropertyDeclaration member then
    let transformed := stripPropertyDecorators member in
    let transformed :=
      if makeReadonly plan then makePropertyReadonly transformed
      else transformed in
    newMembers ++ [transformed]
  else if isConstructorDeclaration member then
    (* Skip existing constructor if we're generating one *)
    if negb (generateConstructor plan) then newMembers ++ [member]
    else newMembers
  else if isMethodDeclaration member then
    (* Keep existing methods (they take precedence over generated ones) *)
    newMembers ++ [member]
  else newMembers ++ [member].

(** The inner loop over the members one handler generated. *)
Definition appendGenerated (originalClass : Node) (newMembers : list Node)
           (member : Node) : list Node :=
  match member with
  | MethodDeclaration _ (IdentifierName text) _ _ _ =>
      (* Only add if no existing method with same name *)
      if negb (hasMethod originalClass text) then newMembers ++ [member]
      else newMembers
  | _ => newMembers ++ [member]
  end.

(** The members of the rewritten class. *)
Definition rewrittenMembers (plan : TransformationPlan)
           (handlers : list DecoratorHandler) (originalClass : Node) : list Node :=
  let newMembers := fold_left (copyMember plan) (classMembers originalClass) [] in
  (* Generate constructor if needed *)
  let newMembers :=
    if generateConstructor plan && negb (hasConstructor originalClass) then
      let additionalStatements :=
        if freezeInstance plan then [] ++ [generateFreezeStatement] else [] in
      let constructor :=
        ConstructorGenerator.generateConstructor plan additionalStatements in
      constructor :: newMembers
    else newMembers in
  (* Let handlers generate their members *)
  fold_left
    (fun newMembers handler =>
       fold_left (appendGenerated originalClass)
                 (generateMembers handler plan) newMembers)
    handlers newMembers.

Definition executeTransformation (plan : TransformationPlan)
           (handlers : list DecoratorHandler) (originalClass : Node) : Node :=
  let newMembers := rewrittenMembers plan handlers originalClass in
  (* Remove our decorators, keep others *)
  let modifiers := removeKnownDecorators originalClass in
  match originalClass with
  | ClassDeclaration _ nm typeParams heritage _ =>
      ClassDeclaration modifiers nm typeParams heritage newMembers
  | _ => originalClass
  end.

(** The plan after every selected handler has modified it. *)
Definition planFor (node : Node) : TransformationPlan :=
  let decoratorNames := getKnownDecorators node in
  let props := getClassProperties node in
  let plan := createPlan node props decoratorNames in
  let handlers :=
    HandlerRegistry.getHandlersForDecorators handlerRegistry decoratorNames in
  fold_left (fun plan handler => modifyPlan handler plan) handlers plan.

(** [undefined] is [None]: no transformation needed. *)
Definition transformClass (node : Node) : option Node :=
  let decoratorNames := getKnownDecorators node in
  let props := getClassProperties node in
  let hasPropertyDecorators :=
    existsb (fun p => (0 <? List.length (propDecorators p))%nat) props in
  if (List.length decoratorNames =? 0)%nat && negb hasPropertyDecorators then None
  else
    let handlers :=
      HandlerRegistry.getHandlersForDecorators handlerRegistry decoratorNames in
    Some (executeTransformation (planFor node) handlers node).

(** A position in a tree: the child indices from the root. *)
Definition Path : Type := list nat.

(** The log of the [i]-th, [i+1]-th, ... children, each path prefixed by
    the index of its child. *)
Fixpoint indexFrom (i : nat) (logs : list (list Path)) : list Path :=
  match logs with
  | [] => []
  | l :: rest => map (cons i) l ++ indexFrom (S i) rest
  end.

(** The visitor of [createVisitor], instrumented with a log: the result is
    the node that replaces [node], and the positions (relative to [node])
    of the class declarations handed to [transformClass], in order.
    [ts.visitEachChild] rebuilds the node from its visited children. *)
Fixpoint visit (node : Node) : Node * list Path :=
  match node with
  | ClassDeclaration ms nm tp hc members =>
      match transformClass node with
      | Some transformed => (transformed, [[]])
      | None =>
          let rs := map visit members in
          (ClassDeclaration ms nm tp hc (map fst rs),
           [] :: indexFrom 0 (map snd rs))
      end
  | PropertyDeclaration ms nm question ty init =>
      match init with
      | None => (node, [])
      | Some i =>
          let r := visit i in
          (PropertyDeclaration ms nm question ty (Some (fst r)),
           indexFrom 0 [snd r])
      end
  | ConstructorDeclaration ms ps body =>
      let rs := map visit body in
      (ConstructorDeclaration ms ps (map fst rs), indexFrom 0 (map snd rs))
  | MethodDeclaration ms nm ps ty body =>
      let rs := map visit body in
      (MethodDeclaration ms nm ps ty (map fst rs), indexFrom 0 (map snd rs))
  | OtherNode kind children =>
      let rs := map visit children in
      (OtherNode kind (map fst rs), indexFrom 0 (map snd rs))
  | StatementNode _ | ExpressionNode _ => (node, [])
  end.

Definition visitor (node : Node) : Node := fst (visit node).

(** The class declarations the traversal of [node] processed. *)
Definition processed (node : Node) : list Path := snd (visit node).

(** transformer/transformer-factory.ts: [ts.visitNode(sourceFile, visitor)] *)
Definition transform (sourceFile : Node) : Node := visitor sourceFile.

(** The children of a node, in the order [ts.visitEachChild] visits them. *)
Definition childrenOf (n : Node) : list Node :=
  match n with
  | ClassDeclaration _ _ _ _ members => members
  | PropertyDeclaration _ _ _ _ init =>
      match init with Some i => [i] | None => [] end
  | ConstructorDeclaration _ _ body => body
  | MethodDeclaration _ _ _ _ body => body
  | OtherNode _ children => children
  | StatementNode _ | ExpressionNode _ => []
  end.

(** The node at a position. *)
Fixpoint nodeAt (p : Path) (n : Node) : option Node :=
  match p with
  | [] => Some n
  | i :: rest =>
      match nth_error (childrenOf n) i with
      | Some c => nodeAt rest c
      | None => None
      end
  end.

(** A class declaration that [transformClass] rewrites. *)
Definition isRewritten (n : Node) : bool :=
  isClassDeclaration n &&
  match transformClass n with Some _ => true | None => false end.

(* ================================================================= *)
(** ** The JavaScript fragment the generators emit                     *)
(* ================================================================= *)

(** The arithmetic of JavaScript numbers is a parameter of the evaluator,
    so that what is proved holds for IEEE doubles as for any other model;
    [ZNumber] below instantiates it with integers. *)
Class JsNumber (num : Type) : Type := {
  numLiteral : Z -> num;              (* an integer-valued number *)
  numTimes : num -> num -> num;       (* [a * b] *)
  numPlus : num -> num -> num;        (* [a + b] on numbers *)
  numBitOr : num -> num -> num;       (* [a | b], a 32-bit integer *)
  numStrictEquals : num -> num -> bool;
  numTruthy : num -> bool;            (* false for 0, -0 and NaN *)
  numToString : num -> string
}.

Section Evaluator.

Context {num : Type} {jsNumber : JsNumber num}.

(** Runtime values.  An object carries its identity, the names of the
    classes it is an instance of, the result of [String(object)], and
    its own properties (members inherited from a prototype are not
    modelled). *)
Inductive Value : Type :=
  | VUndefined
  | VNull
  | VBoolean (b : bool)
  | VNumber (n : num)
  | VString (s : string)
  | VObject (ref : nat) (classes : list string) (description : string)
            (props : list (string * Value)).

Definition isNullish (v : Value) : bool :=
  match v with VUndefined | VNull => true | _ => false end.

(** [typeof v] *)
Definition typeOf (v : Value) : string :=
  match v with
  | VUndefined => "undefined"
  | VNull => "object"
  | VBoolean _ => "boolean"
  | VNumber _ => "number"
  | VString _ => "string"
  | VObject _ _ _ _ => "object"
  end.

(** [String(v)] *)
Definition toStringValue (v : Value) : string :=
  match v with
  | VUndefined => "undefined"
  | VNull => "null"
  | VBoolean true => "true"
  | VBoolean false => "false"
  | VNumber n => numToString n
  | VString s => s
  | VObject _ _ description _ => description
  end.

(** [ToBoolean] *)
Definition truthy (v : Value) : bool :=
  match v with
  | VUndefined | VNull => false
  | VBoolean b => b
  | VNumber n => numTruthy n
  | VString s => negb (String.eqb s "")
  | VObject _ _ _ _ => true
  end.

(** [a === b] *)
Definition strictEquals (a b : Value) : bool :=
  match a, b with
  | VUndefined, VUndefined => true
  | VNull, VNull => true
  | VBoolean x, VBoolean y => Bool.eqb x y
  | VNumber x, VNumber y => numStrictEquals x y
  | VString x, VString y => String.eqb x y
  | VObject r1 _ _ _, VObject r2 _ _ _ => Nat.eqb r1 r2
  | _, _ => false
  end.

(** [a == b]: [null] and [undefined] equal each other and nothing else;
    operands of one type compare strictly; comparisons that coerce between
    types are outside the fragment. *)
Definition looseEquals (a b : Value) : option bool :=
  if isNullish a || isNullish b then Some (isNullish a && isNullish b)
  else if String.eqb (typeOf a) (typeOf b) then Some (strictEquals a b)
  else None.

Fixpoint lookup (x : string) (l : list (string * Value)) : option Value :=
  match l with
  | [] => None
  | (k, v) :: rest => if String.eqb k x then Some v else lookup x rest
  end.

(** [object.name] on a value that is not null or undefined. *)
Definition getProperty (v : Value) (name : string) : option Value :=
  match v with
  | VUndefined | VNull => None   (* TypeError *)
  | VObject _ _ _ props =>
      Some (match lookup name props with Some x => x | None => VUndefined end)
  | VString s =>
      if String.eqb name "length"
      then Some (VNumber (numLiteral (Z.of_nat (String.length s))))
      else Some VUndefined
  | _ => Some VUndefined
  end.

(** The value of [new Error(message)]. *)
Definition errorObject (message : Value) : Value :=
  VObject 0 ["Error"] (String.append "Error: " (toStringValue message))
          [("message", message)].

Definition applyBinary (operator : SyntaxKind) (a b : Value) : option Value :=
  match operator with
  | EqualsEqualsToken => option_map VBoolean (looseEquals a b)
  | EqualsEqualsEqualsToken => Some (VBoolean (strictEquals a b))
  | AsteriskToken =>
      match a, b with
      | VNumber x, VNumber y => Some (VNumber (numTimes x y))
      | _, _ => None
      end
  | PlusToken =>
      match a, b with
      | VNumber x, VNumber y => Some (VNumber (numPlus x y))
      | VString x, VString y => Some (VString (String.append x y))
      | _, _ => None
      end
  | BarToken =>
      match a, b with
      | VNumber x, VNumber y => Some (VNumber (numBitOr x y))
      | _, _ => None
      end
  | _ => None
  end.

(** Evaluation of an expression without side effects; [None] when the
    expression raises a TypeError or lies outside the fragment. *)
Fixpoint evaluate (env : list (string * Value)) (this : Value)
         (e : Expression) : option Value :=
  match e with
  | Identifier x => lookup x env
  | This => Some this
  | Null => Some VNull
  | True_ => Some (VBoolean true)
  | False_ => Some (VBoolean false)
  | NumericLiteral z => Some (VNumber (numLiteral z))
  | StringLiteral s => Some (VString s)
  | NoSubstitutionTemplateLiteral s => Some (VString s)
  | PropertyAccessExpression o name =>
      match evaluate env this o with
      | Some v => getProperty v name
      | None => None
      end
  | BinaryExpression l AmpersandAmpersandToken r =>
      match evaluate env this l with
      | Some v => if truthy v then evaluate env this r else Some v
      | None => None
      end
  | BinaryExpression l InstanceOfKeyword (Identifier cls) =>
      match evaluate env this l with
      | Some (VObject _ classes _ _) => Some (VBoolean (includes classes cls))
      | Some _ => Some (VBoolean false)
      | None => None
      end
  | BinaryExpression l operator r =>
      match evaluate env this l, evaluate env this r with
      | Some a, Some b => applyBinary operator a b
      | _, _ => None
      end
  | PrefixUnaryExpression ExclamationToken o =>
      option_map (fun v => VBoolean (negb (truthy v))) (evaluate env this o)
  | PrefixUnaryExpression _ _ => None
  | ParenthesizedExpression o => evaluate env this o
  | ConditionalExpression c t f =>
      match evaluate env this c with
      | Some v => if truthy v then evaluate env this t else evaluate env this f
      | None => None
      end
  | TypeOfExpression o => option_map (fun v => VString (typeOf v)) (evaluate env this o)
  | CallExpression (Identifier f) [arg] =>
      (* the global [String], when no parameter shadows it *)
      if String.eqb f "String" && negb (existsb (fun kv => String.eqb (fst kv) f) env)
      then option_map (fun v => VString (toStringValue v)) (evaluate env this arg)
      else None
  | CallExpression _ _ => None
  | NewExpression (Identifier c) [arg] =>
      if String.eqb c "Error" && negb (existsb (fun kv => String.eqb (fst kv) c) env)
      then option_map errorObject (evaluate env this arg)
      else None
  | NewExpression _ _ => None
  | TemplateExpression head spans =>
      (fix go (spans : list (Expression * string)) (acc : string) : option Value :=
         match spans with
         | [] => Some (VString acc)
         | (o, literal) :: rest =>
             match evaluate env this o with
             | Some v =>
                 go rest (String.append acc (String.append (toStringValue v) literal))
             | None => None
             end
         end) spans head
  | SourceExpression _ => None
  end.

(** The receiver of a method or constructor call. *)
Record Receiver : Type := mkReceiver {
  selfRef : nat;
  selfClasses : list string;
  selfDescription : string;
  selfProps : list (string * Value);
  selfFrozen : bool
}.

Definition thisValue (r : Receiver) : Value :=
  VObject (selfRef r) (selfClasses r) (selfDescription r) (selfProps r).

(** [this.name = v] on a property list: replace, or add at the end. *)
Fixpoint setProperty (name : string) (v : Value) (props : list (string * Value))
  : list (string * Value) :=
  match props with
  | [] => [(name, v)]
  | (k, old) :: rest =>
      if String.eqb k name then (k, v) :: rest
      else (k, old) :: setProperty name v rest
  end.

Inductive Completion : Type :=
  | Normal (r : Receiver)
  | Returned (v : Value) (r : Receiver)
  | Thrown (v : Value) (r : Receiver)
  | Unsupported.

(** What a statement that is an assignment [this.f = e] assigns. *)
Definition asAssignment (e : Expression) : option (string * Expression) :=
  match e with
  | BinaryExpression (PropertyAccessExpression This f) EqualsToken rhs => Some (f, rhs)
  | _ => None
  end.

(** Whether a statement expression is [Object.freeze(this)]. *)
Definition isFreezeCall (e : Expression) : bool :=
  match e with
  | CallExpression (PropertyAccessExpression (Identifier o) m) [This] =>
      String.eqb o "Object" && String.eqb m "freeze"
  | _ => false
  end.

(** The TypeError of strict-mode code writing to a frozen object. *)
Definition frozenError : Value :=
  VObject 0 ["TypeError"; "Error"] "TypeError: object is not extensible" [].

Definition executeExpression (env : list (string * Value)) (r : Receiver)
           (e : Expression) : Completion :=
  match asAssignment e with
  | Some (f, rhs) =>
      match evaluate env (thisValue r) rhs with
      | Some v =>
          if selfFrozen r then Thrown frozenError r
          else Normal (mkReceiver (selfRef r) (selfClasses r) (selfDescription r)
                                  (setProperty f v (selfProps r)) false)
      | None => Unsupported
      end
  | None =>
      if isFreezeCall e && negb (existsb (fun kv => String.eqb (fst kv) "Object") env)
      then Normal (mkReceiver (selfRef r) (selfClasses r) (selfDescription r)
                              (selfProps r) true)
      else match evaluate env (thisValue r) e with
           | Some _ => Normal r
           | None => Unsupported
           end
  end.

Fixpoint execute (env : list (string * Value)) (r : Receiver) (s : Statement)
  : Completion :=
  match s with
  | IfStatement c thenStatement =>
      match evaluate env (thisValue r) c with
      | Some v => if truthy v then execute env r thenStatement else Normal r
      | None => Unsupported
      end
  | Block statements =>
      (fix run (r : Receiver) (l : list Statement) : Completion :=
         match l with
         | [] => Normal r
         | s1 :: rest =>
             match execute env r s1 with
             | Normal r' => run r' rest
             | other => other
             end
         end) r statements
  | ReturnStatement e =>
      match evaluate env (thisValue r) e with
      | Some v => Returned v r
      | None => Unsupported
      end
  | ThrowStatement e =>
      match evaluate env (thisValue r) e with
      | Some v => Thrown v r
      | None => Unsupported
      end
  | ExpressionStatement e => executeExpression env r e
  end.

(** A statement list, run in order until one completes abruptly. *)
Fixpoint executeAll (env : list (string * Value)) (r : Receiver)
         (l : list Statement) : Completion :=
  match l with
  | [] => Normal r
  | s1 :: rest =>
      match execute env r s1 with
      | Normal r' => executeAll env r' rest
      | other => other
      end
  end.

(** Parameters are bound by position; a missing argument is [undefined]. *)
Fixpoint bindParameters (parameters : list ParameterDeclaration)
         (args : list Value) : list (string * Value) :=
  match parameters with
  | [] => []
  | p :: ps =>
      (parameterName p, match args with a :: _ => a | [] => VUndefined end)
        :: bindParameters ps (match args with _ :: rest => rest | [] => [] end)
  end.

(** Class code is strict-mode code, in which two parameters of one name
    are an early error. *)
Fixpoint distinct (names : list string) : bool :=
  match names with
  | [] => true
  | x :: rest => negb (includes rest x) && distinct rest
  end.

(** The statements of a generated body. *)
Fixpoint bodyStatements (body : list Node) : option (list Statement) :=
  match body with
  | [] => Some []
  | StatementNode s :: rest => option_map (cons s) (bodyStatements rest)
  | _ :: _ => None
  end.

(** [receiver.method(args)] for a generated method, and
    [new C(args)] for a generated constructor run on a fresh receiver. *)
Definition call (member : Node) (r : Receiver) (args : list Value) : Completion :=
  match member with
  | MethodDeclaration _ _ parameters _ body
  | ConstructorDeclaration _ parameters body =>
      match bodyStatements body with
      | Some statements =>
          if distinct (map parameterName parameters) then
            match executeAll (bindParameters parameters args) r statements with
            | Normal r' => Returned VUndefined r'
            | other => other
            end
          else Unsupported
      | None => Unsupported
      end
  | _ => Unsupported
  end.

End Evaluator.

Arguments Value num : clear implicits.
Arguments Receiver num : clear implicits.
Arguments Completion num : clear implicits.

(** Numbers as integers: exact for the integer-valued numbers whose
    products and sums stay within the range doubles represent exactly. *)
Definition toInt32 (z : Z) : Z := ((z + 2 ^ 31) mod 2 ^ 32 - 2 ^ 31)%Z.

#[export] Instance ZNumber : JsNumber Z := {|
  numLiteral := fun z => z;
  numTimes := Z.mul;
  numPlus := Z.add;
  numBitOr := fun a b => toInt32 (Z.lor (toInt32 a) (toInt32 b));
  numStrictEquals := Z.eqb;
  numTruthy := fun z => negb (Z.eqb z 0);
  numToString := fun z => NilZero.string_of_int (Z.to_int z)
|}.

(* ================================================================= *)
(** ** Concrete classes                                                *)
(* ================================================================= *)

(** [@name] *)
Definition marker (name : string) : ModifierLike :=
  DecoratorNode (mkDecorator (Identifier name)).

(** A field [name: type] with the given decorators. *)
Definition field (decoratorNames : list string) (name type : string) : Node :=
  PropertyDeclaration (map marker decoratorNames) (IdentifierName name) false
                      (Some (SourceTypeNode type)) None.

(** A user-written statement, opaque to the transformer. *)
Definition sourceStatement (text : string) : Node := OtherNode text [].

(** [@Record class User { id: number; constructor(id: number) { this.id = id; } }] *)
Definition userConstructor : Node :=
  ConstructorDeclaration []
    [ {| parameterName := "id"; parameterType := Some (SourceTypeNode "number") |} ]
    [ sourceStatement "this.id = id;" ].

Definition recordWithConstructor : Node :=
  ClassDeclaration [marker "Record"] (Some "User") None None
    [ field [] "id" "number"; userConstructor ].

(** [@Equals class User { id: number; constructor(id: number) { this.id = id; } }] *)
Definition equalsWithConstructor : Node :=
  ClassDeclaration [marker "Equals"] (Some "User") None None
    [ field [] "id" "number"; userConstructor ].

(** [class Account { @Getter balance: number; }] *)
Definition getterFieldClass : Node :=
  ClassDeclaration [] (Some "Account") None None
    [ field ["Getter"] "balance" "number" ].

(** [class Entity { @Column id: number; }]: an unrelated field decorator. *)
Definition columnFieldClass : Node :=
  ClassDeclaration [] (Some "Entity") None None
    [ field ["Column"] "id" "number" ].

(** [@Log class Service { log = 1; }] *)
Definition logClass : Node :=
  ClassDeclaration [marker "Log"] (Some "Service") None None
    [ PropertyDeclaration [] (IdentifierName "log") false None
                          (Some (ExpressionNode (NumericLiteral 1))) ].

(** [@ToString class Tag { toString() { return 'tag'; } label: string; }] *)
Definition toStringClass : Node :=
  ClassDeclaration [marker "ToString"] (Some "Tag") None None
    [ MethodDeclaration [] (IdentifierName "toString") [] None
                        [ sourceStatement "return 'tag';" ];
      field [] "label" "string" ].

(** [@Record class Inner { y: number; }] *)
Definition innerClass : Node :=
  ClassDeclaration [marker "Record"] (Some "Inner") None None
    [ field [] "y" "number" ].

(** [@Record class Outer { x: number; make() { @Record class Inner {...} } }] *)
Definition outerClass : Node :=
  ClassDeclaration [marker "Record"] (Some "Outer") None None
    [ field [] "x" "number";
      MethodDeclaration [] (IdentifierName "make") [] None [ innerClass ] ].

(** The same nesting below a class without markers. *)
Definition plainOuterClass : Node :=
  ClassDeclaration [] (Some "Outer") None None
    [ field [] "x" "number";
      MethodDeclaration [] (IdentifierName "make") [] None [ innerClass ] ].


(** [@Record class User { @NonNull id: number; name: string; }] *)
Definition nonNullRecord : Node :=
  ClassDeclaration [marker "Record"] (Some "User") None None
    [ field ["NonNull"] "id" "number"; field [] "name" "string" ].

(** [@Equals class Point { x: number; y: number; }] *)
Definition pointClass : Node :=
  ClassDeclaration [marker "Equals"] (Some "Point") None None
    [ field [] "x" "number"; field [] "y" "number" ].

(** A fresh receiver, and an instance of [Point]. *)
Definition freshReceiver (ref : nat) (cls : string) : Receiver Z :=
  {| selfRef := ref; selfClasses := [cls]; selfDescription := "[object Object]";
     selfProps := []; selfFrozen := false |}.

Definition point (ref : nat) (x y : Z) : Receiver Z :=
  {| selfRef := ref; selfClasses := ["Point"]; selfDescription := "[object Object]";
     selfProps := [("x", VNumber x); ("y", VNumber y)]; selfFrozen := false |}.

(* ================================================================= *)
(** ** Notions used to state the properties                            *)
(* ================================================================= *)

(** What stands at the place of a class after [transformClass]. *)
Definition rewriteOf (node : Node) : Node :=
  match transformClass node with Some t => t | None => node end.

(** What the first loop of the rewriter does to a member when the plan
    asks neither for read-only fields nor for a constructor. *)
Definition stripMember (member : Node) : Node :=
  if isPropertyDeclaration member then stripPropertyDecorators member
  else member.

(** The keyword modifiers and decorators of a class, decorators first. *)
Definition decoratorsFirst (node : Node) : list ModifierLike :=
  map DecoratorNode (ts_getDecorators node) ++ map Modifier (ts_getModifiers node).

(** The flags of a plan that ask for something to be generated or
    changed ([validateNonNull] apart, which no handler sets). *)
Definition generationFlags (plan : TransformationPlan) : list bool :=
  [ generateConstructor plan; freezeInstance plan; makeReadonly plan;
    generateToString plan; generateEquals plan; generateHashCode plan;
    generateWithMethods plan; generateGetters plan; generateSetters plan;
    generateBuilder plan; generateLog plan; generateSingleton plan ].

(** The parameters of a constructor. *)
Definition constructorParameters (n : Node) : list ParameterDeclaration :=
  match n with ConstructorDeclaration _ ps _ => ps | _ => [] end.

(** The parameter generated for a property. *)
Definition parameterOf (p : PropertyInfo) : ParameterDeclaration :=
  {| parameterName := propName p; parameterType := propType p |}.

(** The handlers of the recognized markers, in the order of the markers. *)
Definition selectedInMarkerOrder (registry : HandlerRegistry.t)
           (decoratorNames : list string) : list DecoratorHandler :=
  flat_map (fun o => match o with Some h => [h] | None => [] end)
           (map (HandlerRegistry.Map_get registry) decoratorNames).

(** [a] does not run after [b] as far as priorities go. *)
Definition priorityOrder (a b : DecoratorHandler) : Prop :=
  (priority b <= priority a)%Z.

Definition hasPriority (p : Z) (h : DecoratorHandler) : bool :=
  (priority h =? p)%Z.

(** The handlers selected for a class. *)
Definition handlersFor (node : Node) : list DecoratorHandler :=
  HandlerRegistry.getHandlersForDecorators handlerRegistry (getKnownDecorators node).

(** The additional statements [executeTransformation] passes to
    [generateConstructor], and the constructor it then generates. *)
Definition additionalStatementsFor (plan : TransformationPlan) : list Statement :=
  if freezeInstance plan then [generateFreezeStatement] else [].

Definition generatedConstructor (plan : TransformationPlan) : Node :=
  ConstructorGenerator.generateConstructor plan (additionalStatementsFor plan).

(** The name of a member that has an identifier for name. *)
Definition memberName (n : Node) : option string :=
  match n with
  | PropertyDeclaration _ (IdentifierName text) _ _ _ => Some text
  | MethodDeclaration _ (IdentifierName text) _ _ _ => Some text
  | _ => None
  end.

(** A member whose name is the name of a member of [originalClass]. *)
Definition collides (originalClass : Node) (member : Node) : bool :=
  match memberName member with
  | Some text =>
      existsb (fun m => match memberName m with
                        | Some t => String.eqb t text
                        | None => false
                        end) (classMembers originalClass)
  | None => false
  end.

(** A generated member that the rewriter leaves out: a method with an
    identifier for name, when the original class has a method of that name. *)
Definition suppressed (originalClass : Node) (member : Node) : bool :=
  match member with
  | MethodDeclaration _ (IdentifierName text) _ _ _ => hasMethod originalClass text
  | _ => false
  end.

(** Everything the handlers generate, in handler order. *)
Definition synthesized (plan : TransformationPlan)
           (handlers : list DecoratorHandler) : list Node :=
  flat_map (fun h => generateMembers h plan) handlers.

(** The position of a marker name in the registry (registration order). *)
Fixpoint indexOf (name : string) (l : list string) : nat :=
  match l with
  | [] => 0
  | x :: rest => if String.eqb x name then 0 else S (indexOf name rest)
  end.

Definition registrationIndex (h : DecoratorHandler) : nat :=
  indexOf (decoratorName h) (map fst handlerRegistry).

(** [q] is a proper prefix of [p]: the node at [q] is a proper ancestor of
    the node at [p]. *)
Definition isProperPrefix (q p : Path) : Prop :=
  exists s, s <> [] /\ p = q ++ s.


Section Behaviour.

Context {num : Type} {jsNumber : JsNumber num}.

(** [receiver.f], and [v.f] for a value. *)
Definition fieldOf (props : list (string * Value num)) (f : string) : Value num :=
  match lookup f props with Some v => v | None => VUndefined end.




(** The contribution of a field value to the hash. *)
Definition contribution (v : Value num) : num :=
  match v with
  | VUndefined | VNull => numLiteral 0
  | VNumber n => n
  | other => numLiteral (Z.of_nat (String.length (toStringValue other)))
  end.

(** One step of the combination: [acc * 31 + c]. *)
Definition combine (acc c : num) : num :=
  numPlus (numTimes acc (numLiteral 31)) c.

(** The hash of the field values, in declaration order. *)
Definition hashOfValues (values : list (Value num)) : num :=
  match values with
  | [] => numLiteral 0
  | first :: rest =>
      numBitOr (fold_left combine (map contribution rest) (contribution first))
               (numLiteral 0)
  end.

(** The argument supplied at a position ([undefined] when missing). *)
Definition argumentAt (args : list (Value num)) (i : nat) : Value num :=
  nth i args VUndefined.




End Behaviour.

(* ================================================================= *)
(** ** Notions used to state further properties                        *)
(* ================================================================= *)

(** A member that [getClassProperties] describes: a property declaration
    that has an identifier for name and is not static. *)
Definition isInstanceField (member : Node) : bool :=
  match member with
  | PropertyDeclaration _ (IdentifierName _) _ _ _ =>
      negb (existsb (kindIs StaticKeyword) (ts_getModifiers member))
  | _ => false
  end.

(** A member that is neither a property nor a constructor. *)
Definition isOtherMember (member : Node) : bool :=
  negb (isPropertyDeclaration member) && negb (isConstructorDeclaration member).

(** A property declaration without its modifier list. *)
Definition withoutModifiers (member : Node) : Node :=
  updatePropertyModifiers member [].

(** A node has the keyword modifier [kind]. *)
Definition hasModifier (kind : SyntaxKind) (n : Node) : bool :=
  existsb (kindIs kind) (ts_getModifiers n).

(** A plan with every flag off, and the flags a handler turns on in it. *)
Definition blankPlan : TransformationPlan :=
  createDefaultPlan (OtherNode "" []) [].

Definition flagsSetBy (h : DecoratorHandler) : list bool :=
  generationFlags (modifyPlan h blankPlan).

(** The marker [Value] read as [Record]. *)
Definition aliasName (name : string) : string :=
  if String.eqb name "Value" then "Record" else name.

(** Two handlers that run at the same priority, change every plan alike
    and generate the same members from every plan. *)
Definition sameEffect (a b : DecoratorHandler) : Prop :=
  priority a = priority b /\
  (forall plan, modifyPlan a plan = modifyPlan b plan) /\
  (forall plan, generateMembers a plan = generateMembers b plan).

(** The [i]-th generation flag of a plan. *)
Definition flagAt (i : nat) (plan : TransformationPlan) : bool :=
  nth i (generationFlags plan) false.

(** The keys of the registry, in registration order. *)
Definition registeredNames (registry : HandlerRegistry.t) : list string :=
  map fst registry.

(** The constructor type a handler writes into a plan, if it writes one:
    a handler that leaves the type of two different plans as it found it
    writes none. *)
Definition constructorTypeSetBy (h : DecoratorHandler) : option ConstructorType :=
  match constructorType (modifyPlan h (set_constructorType none blankPlan)),
        constructorType (modifyPlan h (set_constructorType required blankPlan)) with
  | none, required => None
  | t, _ => Some t
  end.

(** The constructor type after one more handler has run. *)
Definition nextConstructorType (t : ConstructorType) (h : DecoratorHandler)
  : ConstructorType :=
  match constructorTypeSetBy h with Some t' => t' | None => t end.

(** Some class declaration in the tree is one that [transformClass]
    rewrites. *)
Fixpoint containsRewritten (n : Node) : bool :=
  isRewritten n ||
  match n with
  | ClassDeclaration _ _ _ _ members => existsb containsRewritten members
  | PropertyDeclaration _ _ _ _ init =>
      match init with Some i => containsRewritten i | None => false end
  | ConstructorDeclaration _ _ body => existsb containsRewritten body
  | MethodDeclaration _ _ _ _ body => existsb containsRewritten body
  | OtherNode _ children => existsb containsRewritten children
  | StatementNode _ | ExpressionNode _ => false
  end.

(** [class Plain { x: number; m() {} }] below a source file. *)
Definition plainSourceFile : Node :=
  OtherNode "SourceFile"
    [ sourceStatement "import { Record } from 'ts-lombok/markers';";
      ClassDeclaration [Modifier ExportKeyword] (Some "Plain") None None
        [ field [] "x" "number";
          MethodDeclaration [] (IdentifierName "m") [] None [] ] ].


Section FurtherBehaviour.

Context {num : Type} {jsNumber : JsNumber num}.

(** [f1=v1, f2=v2, ...] for the fields of a receiver. *)
Fixpoint joinFields (props : list (string * Value num)) (fieldNames : list string)
  : string :=
  match fieldNames with
  | [] => ""
  | f :: rest =>
      String.append f
        (String.append "="
           (String.append (toStringValue (fieldOf props f))
              (match rest with
               | [] => ""
               | _ :: _ => String.append ", " (joinFields props rest)
               end)))
  end.

(** [ClassName(f1=v1, f2=v2, ...)] *)
Definition toStringResult (cls : string) (fieldNames : list string)
           (props : list (string * Value num)) : string :=
  String.append cls (String.append "(" (String.append (joinFields props fieldNames) ")")).





End FurtherBehaviour.

(* ================================================================= *)
(** * Properties                                                       *)
(* ================================================================= *)

Unset Implicit Arguments.

(** ** Loops that push onto an array *)

Lemma fold_left_push (A B : Type) (step : list A -> B -> list A) (f : B -> list A) :
  (forall acc x, step acc x = acc ++ f x) ->
  forall l acc, fold_left step l acc = acc ++ flat_map f l.
Proof.
  intros Hstep l; induction l as [|x l IH]; intros acc; simpl.
  - now rewrite app_nil_r.
  - rewrite IH, Hstep, <- app_assoc. reflexivity.
Qed.

Lemma copyMember_push plan acc member :
  copyMember plan acc member = acc ++ copyMember plan [] member.
Proof.
  unfold copyMember.
  destruct (isPropertyDeclaration member); [reflexivity|].
  destruct (isConstructorDeclaration member).
  - destruct (negb (generateConstructor plan)); simpl; now rewrite ?app_nil_r.
  - destruct (isMethodDeclaration member); reflexivity.
Qed.

Lemma copy_loop plan members acc :
  fold_left (copyMember plan) members acc
  = acc ++ flat_map (copyMember plan []) members.
Proof. apply fold_left_push. intros; apply copyMember_push. Qed.

Lemma appendGenerated_push originalClass acc member :
  appendGenerated originalClass acc member
  = acc ++ (if suppressed originalClass member then [] else [member]).
Proof.
  unfold appendGenerated, suppressed.
  destruct member as [| | |ms [text|src] ps ty body| | |]; try reflexivity.
  destruct (hasMethod originalClass text); simpl; now rewrite ?app_nil_r.
Qed.

Lemma filter_as_flat_map (A : Type) (keep : A -> bool) (l : list A) :
  flat_map (fun x => if keep x then [x] else []) l = filter keep l.
Proof.
  induction l as [|x l IH]; simpl; [reflexivity|].
  destruct (keep x); simpl; now rewrite IH.
Qed.

Lemma generated_loop originalClass generated acc :
  fold_left (appendGenerated originalClass) generated acc
  = acc ++ filter (fun m => negb (suppressed originalClass m)) generated.
Proof.
  rewrite <- filter_as_flat_map.
  rewrite (fold_left_push _ _ (appendGenerated originalClass)
             (fun m => if negb (suppressed originalClass m) then [m] else [])).
  - reflexivity.
  - intros a x. rewrite appendGenerated_push.
    now destruct (suppressed originalClass x).
Qed.

Lemma handlers_loop plan originalClass handlers acc :
  fold_left
    (fun newMembers handler =>
       fold_left (appendGenerated originalClass)
                 (generateMembers handler plan) newMembers)
    handlers acc
  = acc ++ filter (fun m => negb (suppressed originalClass m))
                  (synthesized plan handlers).
Proof.
  unfold synthesized.
  revert acc; induction handlers as [|h hs IH]; intros acc; simpl.
  - now rewrite app_nil_r.
  - rewrite IH, generated_loop, filter_app, app_assoc. reflexivity.
Qed.

(** The members of the rewritten class, part by part. *)
Lemma rewrittenMembers_parts plan handlers originalClass :
  rewrittenMembers plan handlers originalClass
  = (if generateConstructor plan && negb (hasConstructor originalClass)
     then [generatedConstructor plan] else [])
      ++ flat_map (copyMember plan []) (classMembers originalClass)
      ++ filter (fun m => negb (suppressed originalClass m))
                (synthesized plan handlers).
Proof.
  unfold rewrittenMembers. rewrite handlers_loop, copy_loop. simpl.
  destruct (generateConstructor plan && negb (hasConstructor originalClass));
    simpl; [|reflexivity].
  unfold generatedConstructor, additionalStatementsFor.
  destruct (freezeInstance plan); reflexivity.
Qed.

Lemma getClassProperties_flat_map node :
  getClassProperties node
  = flat_map (fun m => match propertyInfoOf m with Some i => [i] | None => [] end)
             (classMembers node).
Proof.
  unfold getClassProperties.
  rewrite (fold_left_push _ _ _
             (fun m => match propertyInfoOf m with Some i => [i] | None => [] end)).
  - reflexivity.
  - intros acc x. destruct (propertyInfoOf x); simpl; now rewrite ?app_nil_r.
Qed.

(** ** Hand-written constructors *)

(** When the class has a constructor, none is generated. *)
Lemma no_constructor_generated_when_present plan handlers originalClass :
  hasConstructor originalClass = true ->
  rewrittenMembers plan handlers originalClass
  = flat_map (copyMember plan []) (classMembers originalClass)
      ++ filter (fun m => negb (suppressed originalClass m))
                (synthesized plan handlers).
Proof.
  intros H. rewrite rewrittenMembers_parts, H, andb_false_r. reflexivity.
Qed.

(** Without the constructor flag, the hand-written constructor is copied. *)
Lemma constructor_kept_without_flag plan handlers originalClass c :
  generateConstructor plan = false ->
  In c (classMembers originalClass) ->
  isConstructorDeclaration c = true ->
  In c (rewrittenMembers plan handlers originalClass).
Proof.
  intros Hflag Hin Hc. rewrite rewrittenMembers_parts.
  apply in_or_app; right. apply in_or_app; left.
  apply in_flat_map. exists c; split; [assumption|].
  unfold copyMember. destruct c; try discriminate Hc. simpl.
  rewrite Hflag. simpl. now left.
Qed.

(** With the constructor flag, the first loop copies no constructor,
    whether or not one is generated afterwards. *)
Lemma constructor_skipped_with_flag plan originalClass m :
  generateConstructor plan = true ->
  In m (flat_map (copyMember plan []) (classMembers originalClass)) ->
  isConstructorDeclaration m = false.
Proof.
  intros Hflag Hin. apply in_flat_map in Hin. destruct Hin as [x [_ Hx]].
  unfold copyMember in Hx.
  destruct x; simpl in Hx; rewrite ?Hflag in Hx; simpl in Hx.
  - destruct Hx as [<-|[]]. reflexivity.
  - destruct (makeReadonly plan); destruct Hx as [<-|[]];
      unfold makePropertyReadonly, stripPropertyDecorators, updatePropertyModifiers;
      repeat match goal with |- context [if ?b then _ else _] => destruct b end;
      reflexivity.
  - destruct Hx.
  - destruct Hx as [<-|[]]. reflexivity.
  - destruct Hx as [<-|[]]. reflexivity.
  - destruct Hx as [<-|[]]. reflexivity.
  - destruct Hx as [<-|[]]. reflexivity.
Qed.

(** C1 (the code departs from the claim).  The claim: a class that has a
    hand-written constructor keeps it unmodified whatever flags are set.
    On [@Record class User { id: number; constructor(id: number) {...} }]
    the rewriter skips the hand-written constructor, because the plan asks
    for a constructor, and then generates none, because the class had one:
    the rewritten class has no constructor at all. *)
Theorem record_class_loses_handwritten_constructor :
  hasConstructor recordWithConstructor = true /\
  In userConstructor (classMembers recordWithConstructor) /\
  generateConstructor (planFor recordWithConstructor) = true /\
  exists out,
    transformClass recordWithConstructor = Some out /\
    hasConstructor out = false /\
    ~ In userConstructor (classMembers out).
Proof.
  split; [reflexivity|]. split; [right; left; reflexivity|].
  split; [reflexivity|].
  eexists; split; [vm_compute; reflexivity|].
  split; [reflexivity|].
  simpl. intros [H|[H|[]]]; discriminate H.
Qed.

(** The sibling case: with a marker that does not ask for a constructor
    the same hand-written constructor is kept. *)
Lemma equals_class_keeps_handwritten_constructor :
  exists out,
    transformClass equalsWithConstructor = Some out /\
    In userConstructor (classMembers out).
Proof.
  eexists; split; [vm_compute; reflexivity|].
  simpl. right; left; reflexivity.
Qed.

(** ** Classes without class markers *)

Lemma filter_all (A : Type) (f : A -> bool) (l : list A) :
  (forall x, In x l -> f x = true) -> filter f l = l.
Proof.
  induction l as [|x l IH]; intros H; simpl; [reflexivity|].
  rewrite (H x (or_introl eq_refl)), IH; [reflexivity|].
  intros y Hy; apply H; now right.
Qed.

Lemma filter_length_le (A : Type) (f : A -> bool) (l : list A) :
  (List.length (filter f l) <= List.length l)%nat.
Proof.
  induction l as [|x l IH]; simpl; [lia|]. destruct (f x); simpl; lia.
Qed.

Lemma filter_same_length (A : Type) (f : A -> bool) (l : list A) :
  List.length (filter f l) = List.length l ->
  forall x, In x l -> f x = true.
Proof.
  induction l as [|y l IH]; intros Hlen x Hin; [destruct Hin|].
  simpl in Hlen. destruct (f y) eqn:Hy.
  - simpl in Hlen. destruct Hin as [<-|Hin]; [assumption|].
    apply IH; [lia|assumption].
  - pose proof (filter_length_le _ f l). simpl in Hlen. lia.
Qed.

Lemma flat_map_singleton (A : Type) (l : list A) :
  flat_map (fun x => [x]) l = l.
Proof. induction l as [|x l IH]; simpl; now rewrite ?IH. Qed.

Lemma flat_map_ext_in (A B : Type) (f g : A -> list B) (l : list A) :
  (forall x, In x l -> f x = g x) -> flat_map f l = flat_map g l.
Proof.
  induction l as [|x l IH]; intros H; simpl; [reflexivity|].
  rewrite (H x (or_introl eq_refl)), IH; [reflexivity|].
  intros y Hy; apply H; now right.
Qed.

Lemma decorators_of_decoratorsFirst ds ks :
  flat_map (fun m => match m with DecoratorNode d => [d] | Modifier _ => [] end)
           (map DecoratorNode ds ++ map Modifier ks) = ds.
Proof.
  rewrite flat_map_app.
  replace (flat_map _ (map Modifier ks)) with (@nil Decorator)
    by (induction ks; simpl; auto).
  rewrite app_nil_r. induction ds as [|d ds IH]; simpl; now rewrite ?IH.
Qed.

Lemma no_known_class_decorator node d :
  getKnownDecorators node = [] ->
  In d (getDecorators node) -> isKnownDecorator d = false.
Proof.
  unfold getKnownDecorators, isKnownDecorator. intros Hnone Hin.
  induction (getDecorators node) as [|e ds IH]; [destruct Hin|].
  cbn [map flat_map] in Hnone.
  apply app_eq_nil in Hnone. destruct Hnone as [He Hds].
  destruct Hin as [<-|Hin]; [|now apply IH].
  destruct (getDecoratorName e) as [nm|]; [|reflexivity].
  destruct (includes KNOWN_CLASS_DECORATORS nm); [discriminate He|reflexivity].
Qed.

(** A class without recognized class marker selects no handler, and its
    plan is the default plan. *)
Lemma unmarked_plan node :
  getKnownDecorators node = [] ->
  handlersFor node = [] /\
  planFor node = createPlan node (getClassProperties node) [].
Proof.
  intros H. unfold handlersFor, planFor. rewrite H. split; reflexivity.
Qed.

Lemma removeKnownDecorators_unmarked node :
  isClassDeclaration node = true ->
  getKnownDecorators node = [] ->
  removeKnownDecorators node = decoratorsFirst node.
Proof.
  intros Hclass Hnone. unfold removeKnownDecorators, decoratorsFirst.
  rewrite filter_all.
  2:{ intros d Hd. now rewrite (no_known_class_decorator node d Hnone Hd). }
  assert (Hg : getDecorators node = ts_getDecorators node).
  { unfold getDecorators. destruct node; try discriminate Hclass. reflexivity. }
  rewrite Hg.
  destruct (ts_getDecorators node) as [|d ds]; simpl; [|reflexivity].
  destruct (ts_getModifiers node); reflexivity.
Qed.

Lemma strip_without_known_decorator member :
  (forall d, In d (ts_getDecorators member) -> isKnownPropertyDecorator d = false) ->
  stripPropertyDecorators member = member.
Proof.
  intros H. unfold stripPropertyDecorators.
  rewrite filter_all; [now rewrite Nat.eqb_refl|].
  intros d Hd. specialize (H d Hd). unfold isKnownPropertyDecorator in H.
  destruct (getDecoratorName d); [now rewrite H|reflexivity].
Qed.

(** The members of a class rewritten under the default plan. *)
Lemma unmarked_members node :
  getKnownDecorators node = [] ->
  rewrittenMembers (planFor node) (handlersFor node) node
  = map stripMember (classMembers node).
Proof.
  intros Hnone. destruct (unmarked_plan node Hnone) as [Hh Hp].
  rewrite rewrittenMembers_parts, Hh, Hp. simpl. rewrite app_nil_r.
  induction (classMembers node) as [|m l IH]; simpl; [reflexivity|].
  rewrite IH. unfold copyMember, stripMember. simpl.
  destruct (isPropertyDeclaration m); [reflexivity|].
  destruct (isConstructorDeclaration m); [reflexivity|].
  destruct (isMethodDeclaration m); reflexivity.
Qed.

Lemma transformClass_cases node :
  transformClass node = None \/
  transformClass node
  = Some (executeTransformation (planFor node) (handlersFor node) node).
Proof.
  unfold transformClass, handlersFor.
  match goal with |- context [if ?b then _ else _] => destruct b end;
    [left|right]; reflexivity.
Qed.

(** C2, as amended.  On a class that has no recognized class marker and
    none of whose properties carries a recognized field marker ([NonNull],
    [Getter] or [Setter]), the rewriter either does nothing or rebuilds
    the class with its name, type parameters, heritage clauses and members
    as they were and its modifier list arranged decorators first; when the
    decorators of the class already precede its keyword modifiers, what
    comes out is the class that went in. *)
Theorem unmarked_class_is_unchanged ms nm tp hc members :
  let node := ClassDeclaration ms nm tp hc members in
  getKnownDecorators node = [] ->
  (forall m d, In m members -> isPropertyDeclaration m = true ->
               In d (ts_getDecorators m) -> isKnownPropertyDecorator d = false) ->
  (transformClass node = None \/
   transformClass node
   = Some (ClassDeclaration (decoratorsFirst node) nm tp hc members)) /\
  (ms = decoratorsFirst node -> rewriteOf node = node).
Proof.
  intros node Hnone Hfields.
  assert (Hcases :
            transformClass node = None \/
            transformClass node
            = Some (ClassDeclaration (decoratorsFirst node) nm tp hc members)).
  { destruct (transformClass_cases node) as [H|H]; [now left|right].
    rewrite H. unfold executeTransformation.
    rewrite (unmarked_members node Hnone).
    rewrite (removeKnownDecorators_unmarked node eq_refl Hnone).
    simpl. f_equal. f_equal.
    rewrite <- (map_id members) at 2. apply map_ext_in.
    intros m Hm. unfold stripMember.
    destruct (isPropertyDeclaration m) eqn:Hp; [|reflexivity].
    apply strip_without_known_decorator. intros d Hd.
    now apply (Hfields m d). }
  split; [exact Hcases|].
  intros Hms. unfold rewriteOf.
  destruct Hcases as [H|H]; rewrite H; [reflexivity|].
  now rewrite <- Hms.
Qed.

Lemma unmarked_class_is_unchanged_witness :
  rewriteOf columnFieldClass = columnFieldClass.
Proof.
  refine (proj2 (unmarked_class_is_unchanged
                   [] (Some "Entity") None None
                   [field ["Column"] "id" "number"] _ _) _).
  - reflexivity.
  - intros m d [<-|[]] _ [<-|[]]. reflexivity.
  - reflexivity.
Defined.

(** C2, as stated, fails: [class Account { @Getter balance: number; }] has
    no recognized class marker and no property that must not be null, and
    yet it is rewritten (the field loses its decorator). *)
Lemma getter_field_class_is_rewritten :
  getKnownDecorators getterFieldClass = [] /\
  (forall p, In p (getClassProperties getterFieldClass) -> isNonNull p = false) /\
  rewriteOf getterFieldClass <> getterFieldClass.
Proof.
  split; [reflexivity|]. split.
  - intros p [<-|[]]. reflexivity.
  - vm_compute. intros H. discriminate H.
Qed.

(** ** [Getter] and [Setter] on a property *)





(** ** Constructor parameters *)

Lemma set_constructorType_spec t plan :
  constructorType (set_constructorType t plan) = t /\
  properties (set_constructorType t plan) = properties plan.
Proof. destruct plan; split; reflexivity. Qed.

Lemma set_constructorType_same plan :
  set_constructorType (constructorType plan) plan = plan.
Proof. destruct plan; reflexivity. Qed.

(** C4.  The parameters of the generated constructor, by constructor
    type: none for ['none']; one per property, in declaration order, for
    ['all']; and for ['required'] one for each property that has no
    initializer and is not optional, in declaration order.  The
    constructor of a plan is the one of its own constructor type. *)
Theorem constructor_parameters_follow_mode plan additionalStatements :
  let parametersFor t :=
    constructorParameters
      (ConstructorGenerator.generateConstructor
         (set_constructorType t plan) additionalStatements) in
  parametersFor none = [] /\
  parametersFor all = map parameterOf (properties plan) /\
  parametersFor required
  = map parameterOf
        (filter (fun p => negb (hasInitializer p) && negb (isOptional p))
                (properties plan)) /\
  parametersFor (constructorType plan)
  = constructorParameters
      (ConstructorGenerator.generateConstructor plan additionalStatements).
Proof.
  unfold ConstructorGenerator.generateConstructor,
    ConstructorGenerator.getConstructorProperties, constructorParameters.
  cbv zeta. repeat split.
  - now rewrite (proj1 (set_constructorType_spec none plan)).
  - rewrite (proj1 (set_constructorType_spec all plan)).
    now rewrite (proj2 (set_constructorType_spec all plan)).
  - rewrite (proj1 (set_constructorType_spec required plan)).
    rewrite (proj2 (set_constructorType_spec required plan)).
    f_equal. apply filter_ext. intros p. apply andb_comm.
  - now rewrite set_constructorType_same.
Qed.

(** ** Generated members and hand-written members *)

Lemma suppressed_iff originalClass member :
  suppressed originalClass member = true <->
  exists mods text ps ty body mods' ps' ty' body',
    member = MethodDeclaration mods (IdentifierName text) ps ty body /\
    In (MethodDeclaration mods' (IdentifierName text) ps' ty' body')
       (classMembers originalClass).
Proof.
  unfold suppressed, hasMethod. split.
  - destruct member as [| | |mods [text|src] ps ty body| | |]; try discriminate.
    intros H. apply existsb_exists in H. destruct H as [m [Hin Hm]].
    destruct m as [| | |mods' [text'|src'] ps' ty' body'| | |]; try discriminate.
    apply String.eqb_eq in Hm. subst text'.
    exists mods, text, ps, ty, body, mods', ps', ty', body'. now split.
  - intros (mods & text & ps & ty & body & mods' & ps' & ty' & body' & -> & Hin).
    apply existsb_exists. eexists; split; [exact Hin|]. apply String.eqb_refl.
Qed.

(** C7, as amended.  The members of the rewritten class are the generated
    constructor (if any), the members copied from the original, and then
    everything the handlers synthesize, in handler order, except the
    synthesized methods that have an identifier for name and share it with
    a hand-written method of the original class; every other synthesized
    member is appended, whatever its name. *)
Theorem synthesized_methods_yield_to_handwritten_methods
        plan handlers ms nm tp hc members :
  let originalClass := ClassDeclaration ms nm tp hc members in
  classMembers (executeTransformation plan handlers originalClass)
  = (if generateConstructor plan && negb (hasConstructor originalClass)
     then [generatedConstructor plan] else [])
      ++ flat_map (copyMember plan []) members
      ++ filter (fun m => negb (suppressed originalClass m))
                (synthesized plan handlers)
  /\
  forall member,
    suppressed originalClass member = true <->
    exists mods text ps ty body mods' ps' ty' body',
      member = MethodDeclaration mods (IdentifierName text) ps ty body /\
      In (MethodDeclaration mods' (IdentifierName text) ps' ty' body') members.
Proof.
  intros originalClass. split.
  - unfold executeTransformation, originalClass. cbn [classMembers].
    apply rewrittenMembers_parts.
  - intros member. apply suppressed_iff.
Qed.

(** C7, as stated, fails: on [@Log class Service { log = 1; }] the
    generated field [log] has the name of a hand-written member and is
    appended all the same. *)
Lemma generated_log_field_is_not_suppressed :
  let generated :=
    PropertyDeclaration [Modifier ProtectedKeyword; Modifier ReadonlyKeyword]
      (IdentifierName "log") false None
      (Some (ExpressionNode (Identifier "console"))) in
  In generated (synthesized (planFor logClass) (handlersFor logClass)) /\
  collides logClass generated = true /\
  exists out,
    transformClass logClass = Some out /\
    classMembers out = classMembers logClass ++ [generated].
Proof.
  cbv zeta. split; [left; reflexivity|]. split; [reflexivity|].
  eexists; split; [vm_compute; reflexivity|reflexivity].
Qed.

(** ** Order of the handlers *)

Section HandlerOrder.

Let byPriority := fun a b : DecoratorHandler => (priority b - priority a)%Z.

Lemma insertSorted_perm x l :
  Permutation (x :: l) (insertSorted byPriority x l).
Proof.
  induction l as [|y l IH]; simpl; [reflexivity|].
  destruct (byPriority x y <=? 0)%Z; [reflexivity|].
  rewrite perm_swap. now apply perm_skip.
Qed.

Lemma Array_sort_perm l : Permutation l (Array_sort byPriority l).
Proof.
  induction l as [|x l IH]; simpl; [reflexivity|].
  rewrite <- insertSorted_perm. now apply perm_skip.
Qed.

Lemma insertSorted_sorted x l :
  StronglySorted priorityOrder l ->
  StronglySorted priorityOrder (insertSorted byPriority x l).
Proof.
  induction 1 as [|y l Hl IH Hy]; simpl.
  - constructor; constructor.
  - destruct (byPriority x y <=? 0)%Z eqn:Hcmp.
    + apply Z.leb_le in Hcmp. unfold byPriority in Hcmp.
      constructor; [now constructor|].
      constructor; [unfold priorityOrder; lia|].
      eapply Forall_impl; [|exact Hy].
      unfold priorityOrder. intros; lia.
    + apply Z.leb_gt in Hcmp. unfold byPriority in Hcmp.
      constructor; [exact IH|].
      eapply Permutation_Forall; [apply insertSorted_perm|].
      constructor; [unfold priorityOrder; lia|exact Hy].
Qed.

Lemma Array_sort_sorted l :
  StronglySorted priorityOrder (Array_sort byPriority l).
Proof.
  induction l as [|x l IH]; simpl; [constructor|].
  now apply insertSorted_sorted.
Qed.

(** Stability: handlers of one priority keep their relative order. *)
Lemma insertSorted_stable p x l :
  filter (hasPriority p) (insertSorted byPriority x l)
  = filter (hasPriority p) (x :: l).
Proof.
  induction l as [|y l IH]; [reflexivity|].
  cbn [insertSorted].
  destruct (byPriority x y <=? 0)%Z eqn:Hcmp; [reflexivity|].
  apply Z.leb_gt in Hcmp. unfold byPriority in Hcmp.
  cbn [filter] in *. rewrite IH. unfold hasPriority.
  destruct (priority y =? p)%Z eqn:Hy; [|reflexivity].
  apply Z.eqb_eq in Hy.
  destruct (priority x =? p)%Z eqn:Hx; [|reflexivity].
  apply Z.eqb_eq in Hx. lia.
Qed.

Lemma Array_sort_stable p l :
  filter (hasPriority p) (Array_sort byPriority l) = filter (hasPriority p) l.
Proof.
  induction l as [|x l IH]; [reflexivity|].
  cbn [Array_sort]. rewrite insertSorted_stable. cbn [filter].
  now rewrite IH.
Qed.

End HandlerOrder.

(** C9, as amended.  The handlers selected for the markers of a class run
    by descending priority (never a handler before one of higher priority);
    they are the handlers of the recognized markers, one per occurrence;
    and handlers of equal priority run in the order in which their markers
    appear on the class. *)
Theorem handlers_run_by_priority_then_marker_order
        (registry : HandlerRegistry.t) (decoratorNames : list string) :
  let handlers := HandlerRegistry.getHandlersForDecorators registry decoratorNames in
  StronglySorted priorityOrder handlers /\
  Permutation (selectedInMarkerOrder registry decoratorNames) handlers /\
  forall p,
    filter (hasPriority p) handlers
    = filter (hasPriority p) (selectedInMarkerOrder registry decoratorNames).
Proof.
  unfold HandlerRegistry.getHandlersForDecorators, selectedInMarkerOrder.
  cbv zeta. split; [apply Array_sort_sorted|].
  split; [apply Array_sort_perm|]. intros p. apply Array_sort_stable.
Qed.

(** C9, as stated, fails: on [@Value @Record] the handler of [Value] runs
    before the handler of [Record]; both have priority 100 and [Record] was
    registered first.  With the markers in the other order the handlers run
    in the other order. *)
Lemma equal_priority_handlers_follow_marker_order :
  map decoratorName
      (HandlerRegistry.getHandlersForDecorators handlerRegistry ["Value"; "Record"])
  = ["Value"; "Record"] /\
  map decoratorName
      (HandlerRegistry.getHandlersForDecorators handlerRegistry ["Record"; "Value"])
  = ["Record"; "Value"] /\
  priority ValueHandler = priority RecordHandler /\
  (registrationIndex RecordHandler < registrationIndex ValueHandler)%nat.
Proof.
  repeat split. vm_compute. lia.
Qed.

(** ** The traversal *)

Lemma Node_children_ind (P : Node -> Prop) :
  (forall n, Forall P (childrenOf n) -> P n) -> forall n, P n.
Proof.
  intros H. fix IH 1. intros n. apply H.
  destruct n as [ms nm tp hc members|ms nm q ty init|ms ps body
                |ms nm ps ty body|kind children|s|e]; simpl.
  - induction members as [|m l IHl]; constructor; [apply IH|exact IHl].
  - destruct init as [i|]; constructor; [apply IH|constructor].
  - induction body as [|m l IHl]; constructor; [apply IH|exact IHl].
  - induction body as [|m l IHl]; constructor; [apply IH|exact IHl].
  - induction children as [|m l IHl]; constructor; [apply IH|exact IHl].
  - constructor.
  - constructor.
Qed.

Lemma processed_unfold n :
  processed n
  = if isRewritten n then [[]]
    else (if isClassDeclaration n then [[]] else [])
           ++ indexFrom 0 (map processed (childrenOf n)).
Proof.
  unfold processed, isRewritten.
  destruct n as [ms nm tp hc members|ms nm q ty init|ms ps body
                |ms nm ps ty body|kind children|s|e]; cbn [visit isClassDeclaration andb childrenOf].
  - destruct (transformClass _); cbn [snd]; [reflexivity|].
    now rewrite map_map.
  - destruct init; reflexivity.
  - cbn [snd]. now rewrite map_map.
  - cbn [snd]. now rewrite map_map.
  - cbn [snd]. now rewrite map_map.
  - reflexivity.
  - reflexivity.
Qed.

Lemma visitor_unfold n :
  match (if isClassDeclaration n then transformClass n else None) with
  | Some t => visitor n = t
  | None => childrenOf (visitor n) = map visitor (childrenOf n)
  end.
Proof.
  unfold visitor.
  destruct n as [ms nm tp hc members|ms nm q ty init|ms ps body
                |ms nm ps ty body|kind children|s|e]; cbn [visit isClassDeclaration].
  - destruct (transformClass _); cbn [fst childrenOf]; [reflexivity|].
    now rewrite map_map.
  - destruct init; reflexivity.
  - cbn [fst childrenOf]. now rewrite map_map.
  - cbn [fst childrenOf]. now rewrite map_map.
  - cbn [fst childrenOf]. now rewrite map_map.
  - reflexivity.
  - reflexivity.
Qed.

Lemma in_indexFrom p k logs :
  In p (indexFrom k logs) <->
  exists i rest log,
    p = (k + i)%nat :: rest /\ nth_error logs i = Some log /\ In rest log.
Proof.
  revert k; induction logs as [|l logs IH]; intros k; cbn [indexFrom].
  - split; [intros []|]. intros (i & rest & log & _ & H & _).
    destruct i; discriminate H.
  - rewrite in_app_iff, in_map_iff, IH. split.
    + intros [(rest & <- & Hin)|(i & rest & log & -> & Hnth & Hin)].
      * exists 0%nat, rest, l. rewrite Nat.add_0_r. repeat split. exact Hin.
      * exists (S i), rest, log. repeat split; [f_equal; lia|exact Hnth|exact Hin].
    + intros (i & rest & log & -> & Hnth & Hin). destruct i as [|i].
      * left. injection Hnth as <-. exists rest. rewrite Nat.add_0_r. now split.
      * right. exists i, rest, log. repeat split; [f_equal; lia|exact Hnth|exact Hin].
Qed.

Lemma NoDup_map_inj (A B : Type) (f : A -> B) (l : list A) :
  (forall a b, f a = f b -> a = b) -> NoDup l -> NoDup (map f l).
Proof.
  intros Hinj H; induction H as [|x l Hx _ IH]; simpl; constructor; [|exact IH].
  intros Hin. apply in_map_iff in Hin. destruct Hin as (y & Hy & Hin).
  apply Hinj in Hy. now subst y.
Qed.

Lemma NoDup_indexFrom k logs :
  Forall (@NoDup Path) logs -> NoDup (indexFrom k logs).
Proof.
  intros H; revert k; induction H as [|l logs Hl _ IH]; intros k; cbn [indexFrom].
  - constructor.
  - apply NoDup_app.
    + apply NoDup_map_inj; [|exact Hl].
      intros a b Hab. now injection Hab.
    + apply IH.
    + intros p Hp Hq. apply in_map_iff in Hp. destruct Hp as (rest & <- & _).
      apply in_indexFrom in Hq. destruct Hq as (i & rest' & log & Heq & _).
      injection Heq as Hk _. lia.
Qed.

Lemma processed_NoDup n : NoDup (processed n).
Proof.
  induction n as [n IH] using Node_children_ind.
  rewrite processed_unfold.
  destruct (isRewritten n); [repeat constructor; intros []|].
  assert (Hc : NoDup (indexFrom 0 (map processed (childrenOf n)))).
  { apply NoDup_indexFrom. apply Forall_map. exact IH. }
  destruct (isClassDeclaration n); [|exact Hc].
  cbn [app]. constructor; [|exact Hc].
  intros Hin. apply in_indexFrom in Hin.
  destruct Hin as (i & rest & log & Heq & _). discriminate Heq.
Qed.

Lemma rewritten_is_class n : isRewritten n = true -> isClassDeclaration n = true.
Proof. unfold isRewritten. now intros H%andb_true_iff. Qed.

Lemma processed_iff p :
  forall n,
    In p (processed n) <->
    exists c,
      nodeAt p n = Some c /\ isClassDeclaration c = true /\
      forall q a, isProperPrefix q p -> nodeAt q n = Some a -> isRewritten a = false.
Proof.
  induction p as [|i rest IH]; intros n; rewrite processed_unfold.
  - cbn [nodeAt]. split.
    + intros Hin. exists n. split; [reflexivity|]. split.
      * destruct (isRewritten n) eqn:Hr; [now apply rewritten_is_class|].
        destruct (isClassDeclaration n); [reflexivity|].
        apply in_indexFrom in Hin. destruct Hin as (j & r & l & Heq & _).
        discriminate Heq.
      * intros q a (s & Hs & Heq). symmetry in Heq.
        apply app_eq_nil in Heq. destruct Heq as [_ ->]. contradiction.
    + intros (c & [= <-] & Hclass & _).
      destruct (isRewritten n); [now left|]. rewrite Hclass. now left.
  - cbn [nodeAt]. split.
    + intros Hin. destruct (isRewritten n) eqn:Hr.
      { destruct Hin as [Heq|[]]; discriminate Heq. }
      assert (Hin' : In (i :: rest) (indexFrom 0 (map processed (childrenOf n)))).
      { destruct (isClassDeclaration n); [|exact Hin].
        destruct Hin as [Heq|Hin]; [discriminate Heq|exact Hin]. }
      apply in_indexFrom in Hin'.
      destruct Hin' as (j & r & l & [= -> ->] & Hnth & Hl).
      rewrite nth_error_map in Hnth.
      destruct (nth_error (childrenOf n) j) as [child|] eqn:Hchild;
        [|discriminate Hnth].
      injection Hnth as <-. apply IH in Hl.
      destruct Hl as (c & Hc & Hclass & Hanc).
      exists c.
      split; [exact Hc|]. split; [exact Hclass|].
      intros q a (s & Hs & Heq) Ha. destruct q as [|k q].
      * cbn [nodeAt] in Ha. injection Ha as <-. exact Hr.
      * cbn [app] in Heq. injection Heq as <- Heq. cbn [nodeAt] in Ha.
        rewrite Hchild in Ha. apply (Hanc q a); [|exact Ha].
        exists s. now split.
    + intros (c & Hc & Hclass & Hanc).
      destruct (nth_error (childrenOf n) i) as [child|] eqn:Hchild;
        [|discriminate Hc].
      assert (Hr : isRewritten n = false).
      { apply (Hanc [] n); [|reflexivity]. exists (i :: rest). now split. }
      rewrite Hr. apply in_or_app. right. apply in_indexFrom.
      exists i, rest, (processed child). split; [reflexivity|]. split.
      * rewrite nth_error_map, Hchild. reflexivity.
      * apply IH. exists c. split; [exact Hc|]. split; [exact Hclass|].
        intros q a (s & Hs & Heq) Ha. apply (Hanc (i :: q) a).
        -- exists s. split; [exact Hs|]. cbn [app]. now rewrite Heq.
        -- cbn [nodeAt]. now rewrite Hchild.
Qed.

(** C8, as amended.  The traversal hands a class declaration to the
    rewriter exactly when none of the classes that enclose it is rewritten,
    and then once: a class that is rewritten is replaced by its rewritten
    declaration as it is, without a visit of its descendants, so the classes
    nested in it are left alone; below any other node the traversal goes on
    into the children. *)
Theorem traversal_stops_at_rewritten_classes (root : Node) :
  NoDup (processed root) /\
  (forall p,
      In p (processed root) <->
      exists c,
        nodeAt p root = Some c /\ isClassDeclaration c = true /\
        forall q a, isProperPrefix q p -> nodeAt q root = Some a ->
                    isRewritten a = false) /\
  match (if isClassDeclaration root then transformClass root else None) with
  | Some rewritten => visitor root = rewritten
  | None => childrenOf (visitor root) = map visitor (childrenOf root)
  end.
Proof.
  split; [apply processed_NoDup|].
  split; [intros p; apply processed_iff|apply visitor_unfold].
Qed.

(** C8, as stated, fails: in
    [@Record class Outer { x: number; make() { @Record class Inner {...} } }]
    the class [Inner] is never handed to the rewriter, although on its own
    it would be rewritten: it stands in the output with its marker. *)
Lemma class_nested_in_rewritten_class_is_skipped :
  nodeAt [1; 0]%nat outerClass = Some innerClass /\
  isClassDeclaration innerClass = true /\
  visitor innerClass <> innerClass /\
  ~ In [1; 0]%nat (processed outerClass) /\
  nodeAt [2; 0]%nat (visitor outerClass) = Some innerClass.
Proof.
  split; [reflexivity|]. split; [reflexivity|]. split.
  - vm_compute. intros H; discriminate H.
  - split; [|reflexivity].
    vm_compute. intros [H|[]]; discriminate H.
Qed.

(** Below a class that is not rewritten the nested class is processed. *)
Lemma class_nested_in_plain_class_is_processed :
  processed plainOuterClass = [[]; [1; 0]%nat] /\
  nodeAt [1; 0]%nat (visitor plainOuterClass) = Some (rewriteOf innerClass).
Proof. split; reflexivity. Qed.

(** ** The generated [equals] *)

Section EqualsBehaviour.

Context {num : Type} {jsNumber : JsNumber num}.

Lemma execute_block env (r : Receiver num) statements :
  execute env r (Block statements) = executeAll env r statements.
Proof.
  cbn [execute]. revert r.
  induction statements as [|s l IH]; intros r; cbn [executeAll]; [reflexivity|].
  destruct (execute env r s); try reflexivity. apply IH.
Qed.









End EqualsBehaviour.


(** ** The generated [hashCode] *)

Section HashBehaviour.

Context {num : Type} {jsNumber : JsNumber num}.




End HashBehaviour.

(** On integers [x | 0] wraps [x] into the 32-bit range. *)
Lemma toInt32_range z : (- 2 ^ 31 <= toInt32 z < 2 ^ 31)%Z.
Proof.
  unfold toInt32.
  pose proof (Z.mod_pos_bound (z + 2 ^ 31) (2 ^ 32) ltac:(lia)). lia.
Qed.

Lemma toInt32_small z : (- 2 ^ 31 <= z < 2 ^ 31)%Z -> toInt32 z = z.
Proof.
  intros H. unfold toInt32. rewrite Z.mod_small; lia.
Qed.

Lemma bitOr_zero_is_toInt32 z : numBitOr z (numLiteral 0) = toInt32 z.
Proof.
  cbn [numBitOr numLiteral ZNumber].
  rewrite (toInt32_small 0) by lia. rewrite Z.lor_0_r.
  apply toInt32_small. apply toInt32_range.
Qed.


(** With integer contributions, starting from the first contribution is
    starting from 0, and the hash lies in the 32-bit range. *)
Lemma integer_hash_from_zero (values : list (Value Z)) :
  values <> [] ->
  hashOfValues values
  = toInt32 (fold_left (fun acc c => acc * 31 + c)%Z (map contribution values) 0%Z)
  /\ (- 2 ^ 31 <= hashOfValues values < 2 ^ 31)%Z.
Proof.
  destruct values as [|v rest]; [congruence|]. intros _.
  unfold hashOfValues. rewrite bitOr_zero_is_toInt32. split.
  - cbn [map fold_left]. reflexivity.
  - apply toInt32_range.
Qed.

(** [new Point(1, 2).hashCode()] is 33, whichever instance it is. *)
Lemma point_hash_example :
  call (MethodGenerator.generateHashCode (planFor pointClass)) (point 1 1 2) []
  = Returned (VNumber 33%Z) (point 1 1 2) /\
  call (MethodGenerator.generateHashCode (planFor pointClass)) (point 2 1 2) []
  = Returned (VNumber 33%Z) (point 2 1 2).
Proof. split; vm_compute; reflexivity. Qed.

(** [new Point(1, 2).equals(new Point(1, 2))] is true, and false against
    null and against a point that differs in a field. *)
Lemma point_equals_example :
  call (MethodGenerator.generateEquals (planFor pointClass)) (point 1 1 2)
       [thisValue (point 2 1 2)]
  = Returned (VBoolean true) (point 1 1 2) /\
  call (MethodGenerator.generateEquals (planFor pointClass)) (point 1 1 2) [VNull]
  = Returned (VBoolean false) (point 1 1 2) /\
  call (MethodGenerator.generateEquals (planFor pointClass)) (point 1 1 2)
       [thisValue (point 2 1 3)]
  = Returned (VBoolean false) (point 1 1 2).
Proof. repeat split; vm_compute; reflexivity. Qed.

(** ** The generated constructor *)




(** No handler of the registry touches the properties of the plan or its
    null-validation flag. *)
Lemma Map_get_In registry key h :
  HandlerRegistry.Map_get registry key = Some h -> In h (map snd registry).
Proof.
  induction registry as [|[k v] rest IH]; simpl; [discriminate|].
  destruct (String.eqb k key); [intros [= ->]; now left|].
  intros H; right; now apply IH.
Qed.

Lemma selected_handlers_registered registry decoratorNames h :
  In h (HandlerRegistry.getHandlersForDecorators registry decoratorNames) ->
  In h (map snd registry).
Proof.
  unfold HandlerRegistry.getHandlersForDecorators. intros Hin.
  apply (Permutation_in _ (Permutation_sym (Array_sort_perm _))) in Hin.
  apply in_flat_map in Hin.
  destruct Hin as (o & Ho & Hh). apply in_map_iff in Ho.
  destruct Ho as (key & <- & _).
  destruct (HandlerRegistry.Map_get registry key) as [h'|] eqn:Hget;
    [|destruct Hh].
  destruct Hh as [<-|[]]. now apply (Map_get_In registry key).
Qed.







Section ConstructorBehaviour.

Context {num : Type} {jsNumber : JsNumber num}.












End ConstructorBehaviour.

Section FirstViolation.

Context {num : Type} {jsNumber : JsNumber num}.





Lemma lookup_setProperty_same f (v : Value num) fields :
  lookup f (setProperty f v fields) = Some v.
Proof.
  induction fields as [|[k old] rest IH]; cbn [setProperty lookup].
  - now rewrite String.eqb_refl.
  - destruct (String.eqb k f) eqn:Hk; cbn [lookup]; rewrite Hk; [reflexivity|exact IH].
Qed.

Lemma lookup_setProperty_other f g (v : Value num) fields :
  g <> f -> lookup g (setProperty f v fields) = lookup g fields.
Proof.
  intros Hneq. induction fields as [|[k old] rest IH]; cbn [setProperty lookup].
  - now rewrite (proj2 (String.eqb_neq f g)) by congruence.
  - destruct (String.eqb k f) eqn:Hk; cbn [lookup].
    + apply String.eqb_eq in Hk. subst k.
      now rewrite (proj2 (String.eqb_neq f g)) by congruence.
    + destruct (String.eqb k g); [reflexivity|exact IH].
Qed.



End FirstViolation.




(** [@Record class User { @NonNull id: number; name: string; }]:
    [new User(null, 'x')] throws, [new User(1, 'x')] has [id] 1 and is
    frozen. *)
Lemma nonNull_record_example :
  call (generatedConstructor (planFor nonNullRecord)) (freshReceiver 1 "User")
       [VNull; VString "x"]
  = Thrown (errorObject (VString "id cannot be null or undefined"))
           (freshReceiver 1 "User") /\
  call (generatedConstructor (planFor nonNullRecord)) (freshReceiver 1 "User")
       [VNumber 1%Z; VString "x"]
  = Returned VUndefined
      {| selfRef := 1; selfClasses := ["User"];
         selfDescription := "[object Object]";
         selfProps := [("id", VNumber 1%Z); ("name", VString "x")];
         selfFrozen := true |}.
Proof. split; vm_compute; reflexivity. Qed.

(** ** Further scenarios *)

(** A hand-written [toString] method wins over the generated one. *)
Lemma handwritten_toString_wins :
  exists out,
    transformClass toStringClass = Some out /\
    classMembers out = classMembers toStringClass.
Proof. eexists; split; [vm_compute; reflexivity|reflexivity]. Qed.

(** [new User(1, 'John').toString()] is ["User(id=1, name=John)"]. *)
Lemma toString_example :
  call (MethodGenerator.generateToString (planFor nonNullRecord))
       {| selfRef := 1; selfClasses := ["User"];
          selfDescription := "[object Object]";
          selfProps := [("id", VNumber 1%Z); ("name", VString "John")];
          selfFrozen := true |}
       []
  = Returned (VString "User(id=1, name=John)")
      {| selfRef := 1; selfClasses := ["User"];
         selfDescription := "[object Object]";
         selfProps := [("id", VNumber 1%Z); ("name", VString "John")];
         selfFrozen := true |}.
Proof. vm_compute. reflexivity. Qed.

(** The registry holds the fourteen handlers, in registration order. *)
Lemma registry_contents :
  map snd handlerRegistry
  = [ RecordHandler; ValueHandler; EqualsHandler; WithHandler;
      GetterHandler; SetterHandler; ToStringHandler; DataHandler;
      BuilderHandler; NoArgsConstructorHandler; AllArgsConstructorHandler;
      RequiredArgsConstructorHandler; LogHandler; SingletonHandler ].
Proof. reflexivity. Qed.

Ltac members_of_handler H :=
  cbn [generateMembers] in H;
  unfold MethodGenerator.generateGetters, MethodGenerator.generateSetters,
    MethodGenerator.generateWithMethods, MethodGenerator.generateBuilder,
    MethodGenerator.generateSingleton, MethodGenerator.generateLog in H;
  repeat match goal with
         | H : In _ (_ ++ _) |- _ => apply in_app_or in H; destruct H as [H|H]
         | H : In _ (if ?b then _ else _) |- _ => destruct b
         | H : In _ (map _ _) |- _ =>
             apply in_map_iff in H; destruct H as (? & <- & ?)
         | H : In _ [] |- _ => destruct H
         | H : In _ (_ :: _) |- _ => destruct H as [<-|H]
         end.

(** No handler of the registry generates a constructor. *)
Lemma registered_handler_generates_no_constructor h plan m :
  In h (map snd handlerRegistry) ->
  In m (generateMembers h plan) ->
  isConstructorDeclaration m = false.
Proof.
  rewrite registry_contents. intros Hin Hm.
  repeat (destruct Hin as [<-|Hin];
          [match type of Hm with
           | In _ (generateMembers ?handler _) => unfold handler in Hm
           end;
           members_of_handler Hm; reflexivity|]).
  destruct Hin.
Qed.

(** In general: when the plan asks for a constructor and the class has a
    hand-written one, the rewritten class has no constructor. *)
Lemma handwritten_constructor_is_lost ms nm tp hc members :
  let node := ClassDeclaration ms nm tp hc members in
  hasConstructor node = true ->
  generateConstructor (planFor node) = true ->
  exists out,
    transformClass node = Some out /\ hasConstructor out = false.
Proof.
  intros node Hhas Hflag.
  assert (Hknown : getKnownDecorators node <> []).
  { intros Hnone. destruct (unmarked_plan node Hnone) as [_ Hp].
    rewrite Hp in Hflag. discriminate Hflag. }
  destruct (transformClass_cases node) as [Hno|Hyes].
  { unfold transformClass in Hno.
    destruct (getKnownDecorators node); [congruence|discriminate Hno]. }
  eexists. split; [exact Hyes|].
  unfold executeTransformation, node, hasConstructor. cbn [classMembers].
  fold node. rewrite (no_constructor_generated_when_present _ _ node Hhas).
  destruct (existsb isConstructorDeclaration _) eqn:Hex; [|reflexivity].
  apply existsb_exists in Hex. destruct Hex as (m & Hm & Hc).
  apply in_app_or in Hm. destruct Hm as [Hm|Hm].
  - rewrite (constructor_skipped_with_flag _ node m Hflag Hm) in Hc.
    discriminate Hc.
  - apply filter_In in Hm. destruct Hm as [Hm _].
    unfold synthesized in Hm. apply in_flat_map in Hm.
    destruct Hm as (h & Hh & Hm).
    rewrite (registered_handler_generates_no_constructor h (planFor node) m) in Hc;
      [discriminate Hc| |exact Hm].
    now apply (selected_handlers_registered handlerRegistry (getKnownDecorators node)).
Qed.


(* ================================================================= *)
(** * Further properties                                               *)
(* ================================================================= *)

(** ** Modifier lists *)

Lemma modifiers_of_decoratorsFirst ds ks :
  flat_map (fun m => match m with Modifier k => [k] | DecoratorNode _ => [] end)
           (map DecoratorNode ds ++ map Modifier ks) = ks.
Proof.
  rewrite flat_map_app.
  replace (flat_map _ (map DecoratorNode ds)) with (@nil SyntaxKind)
    by (induction ds; simpl; auto).
  cbn [app]. induction ks as [|k ks IH]; simpl; now rewrite ?IH.
Qed.

Lemma removeKnownDecorators_parts node :
  removeKnownDecorators node
  = map DecoratorNode (filter (fun d => negb (isKnownDecorator d)) (getDecorators node))
      ++ map Modifier (ts_getModifiers node).
Proof.
  unfold removeKnownDecorators.
  destruct (filter _ (getDecorators node)) as [|d ds]; [|reflexivity].
  destruct (ts_getModifiers node); reflexivity.
Qed.

Lemma no_known_names ds :
  (forall d, In d ds -> isKnownDecorator d = false) ->
  flat_map (fun o => match o with
                     | Some nm => if includes KNOWN_CLASS_DECORATORS nm then [nm] else []
                     | None => []
                     end)
           (map getDecoratorName ds) = [].
Proof.
  induction ds as [|d ds IH]; intros H; [reflexivity|]. cbn [map flat_map].
  rewrite IH by (intros e He; apply H; now right). rewrite app_nil_r.
  specialize (H d (or_introl eq_refl)). unfold isKnownDecorator in H.
  destruct (getDecoratorName d); [now rewrite H|reflexivity].
Qed.

Lemma executeTransformation_shape plan handlers ms nm tp hc members :
  let node := ClassDeclaration ms nm tp hc members in
  executeTransformation plan handlers node
  = ClassDeclaration
      (map DecoratorNode
           (filter (fun d => negb (isKnownDecorator d)) (ts_getDecorators node))
         ++ map Modifier (ts_getModifiers node))
      nm tp hc (rewrittenMembers plan handlers node).
Proof.
  cbv zeta. unfold executeTransformation.
  now rewrite removeKnownDecorators_parts.
Qed.

Lemma rewritten_decorators plan handlers ms nm tp hc members :
  let node := ClassDeclaration ms nm tp hc members in
  ts_getDecorators (executeTransformation plan handlers node)
  = filter (fun d => negb (isKnownDecorator d)) (ts_getDecorators node).
Proof.
  cbv zeta. rewrite executeTransformation_shape.
  unfold ts_getDecorators at 1. cbn [nodeModifiers].
  apply decorators_of_decoratorsFirst.
Qed.


Lemma rewritten_has_no_known_marker plan handlers ms nm tp hc members :
  getKnownDecorators
    (executeTransformation plan handlers (ClassDeclaration ms nm tp hc members))
  = [].
Proof.
  unfold getKnownDecorators, getDecorators.
  rewrite rewritten_decorators. rewrite executeTransformation_shape.
  cbn [ts_canHaveDecorators negb]. apply no_known_names.
  intros d Hd. apply filter_In in Hd. destruct Hd as [_ Hk].
  now apply negb_true_iff in Hk.
Qed.


(** ** Property declarations *)

Lemma keep_is_unknown ds :
  filter (fun d => match getDecoratorName d with
                   | None => true
                   | Some nm => negb (includes KNOWN_PROPERTY_DECORATORS nm)
                   end) ds
  = filter (fun d => negb (isKnownPropertyDecorator d)) ds.
Proof.
  apply filter_ext. intros d. unfold isKnownPropertyDecorator.
  now destruct (getDecoratorName d).
Qed.

Lemma filter_idempotent (A : Type) (f : A -> bool) (l : list A) :
  filter f (filter f l) = filter f l.
Proof.
  apply filter_all. intros x Hx. now apply filter_In in Hx.
Qed.

Lemma stripPropertyDecorators_parts ms nm question ty init :
  let property := PropertyDeclaration ms nm question ty init in
  stripPropertyDecorators property = property \/
  stripPropertyDecorators property
  = PropertyDeclaration
      (map DecoratorNode
           (filter (fun d => negb (isKnownPropertyDecorator d))
                   (ts_getDecorators property))
         ++ map Modifier (ts_getModifiers property))
      nm question ty init.
Proof.
  cbv zeta. unfold stripPropertyDecorators.
  match goal with |- context [if ?b then _ else _] => destruct b end;
    [now left|right].
  rewrite keep_is_unknown. reflexivity.
Qed.

Lemma stripPropertyDecorators_decorators ms nm question ty init :
  let property := PropertyDeclaration ms nm question ty init in
  ts_getDecorators (stripPropertyDecorators property)
  = filter (fun d => negb (isKnownPropertyDecorator d)) (ts_getDecorators property).
Proof.
  cbv zeta. unfold stripPropertyDecorators.
  match goal with |- context [if ?b then _ else _] => destruct b eqn:Hlen end.
  - apply Nat.eqb_eq in Hlen. rewrite keep_is_unknown in Hlen.
    symmetry. apply filter_all. intros d Hd.
    exact (filter_same_length _ _ _ Hlen d Hd).
  - rewrite keep_is_unknown. unfold updatePropertyModifiers.
    unfold ts_getDecorators at 1. cbn [nodeModifiers].
    apply decorators_of_decoratorsFirst.
Qed.

Lemma stripPropertyDecorators_modifiers ms nm question ty init :
  let property := PropertyDeclaration ms nm question ty init in
  ts_getModifiers (stripPropertyDecorators property) = ts_getModifiers property.
Proof.
  cbv zeta.
  destruct (stripPropertyDecorators_parts ms nm question ty init) as [-> | ->];
    [reflexivity|].
  unfold ts_getModifiers at 1. cbn [nodeModifiers].
  apply modifiers_of_decoratorsFirst.
Qed.

(** X2.  Stripping the decorators of a property removes exactly its
    recognized property decorators ([NonNull], [Getter], [Setter]): the
    other decorators stay, in their order, the keyword modifiers stay, in
    their order, and name, question token, type and initializer are
    untouched.  Stripping twice is stripping once, and a property without
    recognized decorator comes back as it is. *)
Theorem stripPropertyDecorators_removes_recognized_only ms nm question ty init :
  let property := PropertyDeclaration ms nm question ty init in
  let stripped := stripPropertyDecorators property in
  ts_getDecorators stripped
  = filter (fun d => negb (isKnownPropertyDecorator d)) (ts_getDecorators property) /\
  ts_getModifiers stripped = ts_getModifiers property /\
  withoutModifiers stripped = withoutModifiers property /\
  stripPropertyDecorators stripped = stripped /\
  (existsb isKnownPropertyDecorator (ts_getDecorators property) = false ->
   stripped = property).
Proof.
  cbv zeta.
  split; [apply stripPropertyDecorators_decorators|].
  split; [apply stripPropertyDecorators_modifiers|].
  split.
  { destruct (stripPropertyDecorators_parts ms nm question ty init) as [-> | ->];
      reflexivity. }
  split.
  - destruct (stripPropertyDecorators_parts ms nm question ty init) as [H|H];
      rewrite H.
    + exact H.
    + apply strip_without_known_decorator. intros d Hd.
      unfold ts_getDecorators at 1 in Hd. cbn [nodeModifiers] in Hd.
      rewrite decorators_of_decoratorsFirst in Hd.
      apply filter_In in Hd. destruct Hd as [_ Hk]. now apply negb_true_iff in Hk.
  - intros Hnone. apply strip_without_known_decorator. intros d Hd.
    destruct (isKnownPropertyDecorator d) eqn:Hk; [|reflexivity].
    assert (existsb isKnownPropertyDecorator
                    (ts_getDecorators (PropertyDeclaration ms nm question ty init))
            = true) by (apply existsb_exists; now exists d).
    congruence.
Qed.

Lemma makePropertyReadonly_parts ms nm question ty init :
  let property := PropertyDeclaration ms nm question ty init in
  makePropertyReadonly property
  = if hasModifier ReadonlyKeyword property then property
    else PropertyDeclaration
           (map DecoratorNode (ts_getDecorators property)
              ++ map Modifier (ReadonlyKeyword :: ts_getModifiers property))
           nm question ty init.
Proof.
  cbv zeta. unfold makePropertyReadonly, hasModifier.
  destruct (existsb _ _); reflexivity.
Qed.


(** ** What the rewriter copies *)

(** What the first loop of the rewriter makes of one member. *)
Lemma copyMember_cases plan member :
  (isPropertyDeclaration member = true /\
   exists copy,
     copyMember plan [] member = [copy] /\
     isPropertyDeclaration copy = true /\
     withoutModifiers copy = withoutModifiers member /\
     ts_getDecorators copy
     = filter (fun d => negb (isKnownPropertyDecorator d)) (ts_getDecorators member) /\
     (makeReadonly plan = true -> hasModifier ReadonlyKeyword copy = true)) \/
  (isConstructorDeclaration member = true /\
   copyMember plan [] member = if generateConstructor plan then [] else [member]) \/
  (isOtherMember member = true /\ copyMember plan [] member = [member]).
Proof.
  destruct member as [ms nm tp hc members|ms nm q ty init|ms ps body
                     |ms nm ps ty body|kind children|s|e].
  - right; right. now split.
  - left. split; [reflexivity|].
    unfold copyMember. cbn [isPropertyDeclaration app].
    pose proof (stripPropertyDecorators_decorators ms nm q ty init) as Hd.
    cbv zeta in Hd.
    destruct (stripPropertyDecorators_parts ms nm q ty init) as [Hs|Hs];
      rewrite Hs in *;
      (destruct (makeReadonly plan);
       [rewrite makePropertyReadonly_parts;
        match goal with
        | |- context [if ?b then _ else _] => destruct b eqn:Hro
        end|]);
      eexists; (split; [reflexivity|]); (split; [reflexivity|]);
      (split; [reflexivity|]); split;
      try (intros _; exact Hro); try discriminate; try exact Hd;
      try (unfold ts_getDecorators at 1; cbn [nodeModifiers];
           rewrite decorators_of_decoratorsFirst; exact Hd);
      try (intros _; unfold hasModifier, ts_getModifiers; cbn [nodeModifiers];
           rewrite modifiers_of_decoratorsFirst; reflexivity).
  - right; left. split; [reflexivity|].
    unfold copyMember. cbn [isPropertyDeclaration isConstructorDeclaration].
    now destruct (generateConstructor plan).
  - right; right. now split.
  - right; right. now split.
  - right; right. now split.
  - right; right. now split.
Qed.

Lemma isOtherMember_exclusive member :
  isOtherMember member = true ->
  isPropertyDeclaration member = false /\ isConstructorDeclaration member = false.
Proof.
  unfold isOtherMember. intros H. apply andb_true_iff in H. destruct H as [H1 H2].
  now apply negb_true_iff in H1, H2.
Qed.

(** X4.  Of the original members the rewriter copies, in order: every
    member that is neither a property nor a constructor, as it is; one
    copy of every property, with name, question token, type and initializer
    as they were; and the constructors as they are, unless the plan asks
    for a constructor, in which case it copies none. *)
Theorem original_members_pass_through plan handlers ms nm tp hc members :
  let node := ClassDeclaration ms nm tp hc members in
  let copied := flat_map (copyMember plan []) members in
  classMembers (executeTransformation plan handlers node)
  = (if generateConstructor plan && negb (hasConstructor node)
     then [generatedConstructor plan] else [])
      ++ copied
      ++ filter (fun m => negb (suppressed node m)) (synthesized plan handlers) /\
  filter isOtherMember copied = filter isOtherMember members /\
  map withoutModifiers (filter isPropertyDeclaration copied)
  = map withoutModifiers (filter isPropertyDeclaration members) /\
  filter isConstructorDeclaration copied
  = (if generateConstructor plan then []
     else filter isConstructorDeclaration members).
Proof.
  cbv zeta. split.
  { rewrite executeTransformation_shape. cbn [classMembers].
    apply rewrittenMembers_parts. }
  induction members as [|m members IH]; cbn [flat_map filter map].
  { repeat split. now destruct (generateConstructor plan). }
  destruct IH as (IHo & IHp & IHc).
  rewrite !filter_app, map_app, IHo, IHp, IHc.
  destruct (copyMember_cases plan m)
    as [(Hp & copy & -> & Hcp & Hwm & _)|[(Hc & ->)|(Ho & ->)]].
  - assert (Hom : isOtherMember m = false)
      by (unfold isOtherMember; now rewrite Hp).
    assert (Hoc : isOtherMember copy = false)
      by (unfold isOtherMember; now rewrite Hcp).
    assert (Hcm : isConstructorDeclaration m = false)
      by (destruct m; try discriminate Hp; reflexivity).
    assert (Hcc : isConstructorDeclaration copy = false)
      by (destruct copy; try discriminate Hcp; reflexivity).
    cbn [filter]. rewrite Hom, Hoc, Hp, Hcp, Hcm, Hcc. cbn [map app].
    rewrite Hwm. repeat split.
  - assert (Hom : isOtherMember m = false)
      by (unfold isOtherMember; rewrite Hc; apply andb_false_r).
    assert (Hpm : isPropertyDeclaration m = false)
      by (destruct m; try discriminate Hc; reflexivity).
    rewrite Hom, Hpm, Hc.
    destruct (generateConstructor plan); cbn [filter app map];
      rewrite ?Hom, ?Hpm, ?Hc; repeat split.
  - destruct (isOtherMember_exclusive m Ho) as [Hpm Hcm].
    cbn [filter]. rewrite Ho, Hpm, Hcm. cbn [app map]. repeat split.
Qed.

(** ** Rewriting twice *)

Lemma registered_handler_generates_undecorated h plan m :
  In h (map snd handlerRegistry) ->
  In m (generateMembers h plan) ->
  ts_getDecorators m = [].
Proof.
  rewrite registry_contents. intros Hin Hm.
  repeat (destruct Hin as [<-|Hin];
          [match type of Hm with
           | In _ (generateMembers ?handler _) => unfold handler in Hm
           end;
           members_of_handler Hm; reflexivity|]).
  destruct Hin.
Qed.

Lemma unmarked_class_fixed ms nm tp hc members :
  let node := ClassDeclaration ms nm tp hc members in
  getKnownDecorators node = [] ->
  (forall m d, In m members -> isPropertyDeclaration m = true ->
               In d (ts_getDecorators m) -> isKnownPropertyDecorator d = false) ->
  ms = decoratorsFirst node ->
  rewriteOf node = node.
Proof.
  intros node Hnone Hfields Hms. unfold rewriteOf.
  assert (Hmem : map stripMember members = members).
  { rewrite <- (map_id members) at 2. apply map_ext_in.
    intros m Hm. unfold stripMember.
    destruct (isPropertyDeclaration m) eqn:Hp; [|reflexivity].
    apply strip_without_known_decorator. intros d Hd.
    now apply (Hfields m d). }
  destruct (transformClass_cases node) as [H|H]; rewrite H; [reflexivity|].
  unfold executeTransformation.
  rewrite (unmarked_members node Hnone).
  rewrite (removeKnownDecorators_unmarked node eq_refl Hnone).
  cbn [node classMembers]. rewrite Hmem. now rewrite <- Hms.
Qed.

(** X5.  Rewriting is idempotent: a class that the rewriter has rewritten
    comes out of a second pass as it went in (no recognized marker is left
    on it or on its properties, and nothing it generates carries one). *)
Theorem rewriting_twice_is_rewriting_once ms nm tp hc members :
  let node := ClassDeclaration ms nm tp hc members in
  rewriteOf (rewriteOf node) = rewriteOf node.
Proof.
  intros node. unfold rewriteOf at 2 3.
  destruct (transformClass_cases node) as [H|H]; rewrite H.
  { unfold rewriteOf. now rewrite H. }
  unfold node. rewrite executeTransformation_shape. fold node.
  apply unmarked_class_fixed.
  - pose proof (rewritten_has_no_known_marker
                  (planFor node) (handlersFor node) ms nm tp hc members) as Hk.
    unfold node. now rewrite executeTransformation_shape in Hk.
  - intros m d Hm Hp Hd. rewrite rewrittenMembers_parts in Hm.
    apply in_app_or in Hm. destruct Hm as [Hm|Hm].
    + destruct (generateConstructor (planFor node) && negb (hasConstructor node));
        [|destruct Hm].
      destruct Hm as [<-|[]]. discriminate Hp.
    + apply in_app_or in Hm. destruct Hm as [Hm|Hm].
      * apply in_flat_map in Hm. destruct Hm as (m0 & _ & Hm0).
        destruct (copyMember_cases (planFor node) m0)
          as [(_ & copy & Hc & _ & _ & Hdecs & _)|[(Hc0 & Hc)|(Ho & Hc)]];
          rewrite Hc in Hm0.
        -- destruct Hm0 as [<-|[]]. rewrite Hdecs in Hd.
           apply filter_In in Hd. destruct Hd as [_ Hk].
           now apply negb_true_iff in Hk.
        -- destruct (generateConstructor (planFor node)); [destruct Hm0|].
           destruct Hm0 as [<-|[]].
           destruct m0; try discriminate Hc0; discriminate Hp.
        -- destruct Hm0 as [<-|[]].
           destruct (isOtherMember_exclusive m0 Ho) as [Hp0 _]. congruence.
      * apply filter_In in Hm. destruct Hm as [Hm _].
        unfold synthesized in Hm. apply in_flat_map in Hm.
        destruct Hm as (h & Hh & Hm).
        rewrite (registered_handler_generates_undecorated h (planFor node) m) in Hd;
          [destruct Hd| |exact Hm].
        now apply (selected_handlers_registered handlerRegistry (getKnownDecorators node)).
  - unfold decoratorsFirst, ts_getDecorators, ts_getModifiers. cbn [nodeModifiers].
    now rewrite decorators_of_decoratorsFirst, modifiers_of_decoratorsFirst.
Qed.

(** ** Plans and handlers *)

Ltac each_registered_handler Hin tac :=
  rewrite registry_contents in Hin;
  repeat (destruct Hin as [<-|Hin]; [tac|]);
  destruct Hin.

Lemma registered_handler_ors_flags h plan i :
  In h (map snd handlerRegistry) ->
  flagAt i (modifyPlan h plan) = flagAt i plan || nth i (flagsSetBy h) false.
Proof.
  intros Hin. unfold flagAt, flagsSetBy.
  each_registered_handler Hin
    ltac:(destruct plan; cbn;
          do 12 (destruct i as [|i];
                 [now rewrite ?orb_true_r, ?orb_false_r|]);
          destruct i; reflexivity).
Qed.

Lemma fold_ors_flags handlers i :
  (forall h, In h handlers -> In h (map snd handlerRegistry)) ->
  forall plan,
    flagAt i (fold_left (fun plan handler => modifyPlan handler plan) handlers plan)
    = flagAt i plan || existsb (fun h => nth i (flagsSetBy h) false) handlers.
Proof.
  induction handlers as [|h hs IH]; intros Hreg plan; cbn [fold_left existsb].
  - now rewrite orb_false_r.
  - rewrite IH by (intros h' Hh'; apply Hreg; now right).
    rewrite (registered_handler_ors_flags h plan i (Hreg h (or_introl eq_refl))).
    now rewrite orb_assoc.
Qed.

Lemma handlersFor_registered node h :
  In h (handlersFor node) -> In h (map snd handlerRegistry).
Proof. apply selected_handlers_registered. Qed.

Lemma planFor_flag node i :
  flagAt i (planFor node)
  = existsb (fun h => nth i (flagsSetBy h) false) (handlersFor node).
Proof.
  unfold planFor. fold (handlersFor node).
  rewrite (fold_ors_flags (handlersFor node) i (handlersFor_registered node)).
  unfold flagAt at 1.
  do 12 (destruct i as [|i]; [reflexivity|]). destruct i; reflexivity.
Qed.

(** X6.  The generation flags of the final plan of a class are the
    disjunction, flag by flag, of what its selected handlers turn on: a
    flag is on exactly when some selected handler turns it on, whatever the
    order of the handlers, and no registered handler ever turns a flag off. *)
Theorem plan_flags_are_the_union_of_the_handlers (node : Node) :
  (forall i,
      flagAt i (planFor node)
      = existsb (fun h => nth i (flagsSetBy h) false) (handlersFor node)) /\
  Forall (fun h => forall plan i,
              flagAt i (modifyPlan h plan)
              = flagAt i plan || nth i (flagsSetBy h) false)
         (map snd handlerRegistry).
Proof.
  split; [intros i; apply planFor_flag|].
  apply Forall_forall. intros h Hh plan i.
  now apply registered_handler_ors_flags.
Qed.

Lemma registered_handler_keeps_descriptors h plan :
  In h (map snd handlerRegistry) ->
  classDeclaration (modifyPlan h plan) = classDeclaration plan /\
  className (modifyPlan h plan) = className plan /\
  properties (modifyPlan h plan) = properties plan /\
  decorators (modifyPlan h plan) = decorators plan /\
  validateNonNull (modifyPlan h plan) = validateNonNull plan /\
  additionalMembers (modifyPlan h plan) = additionalMembers plan.
Proof.
  intros Hin.
  each_registered_handler Hin ltac:(destruct plan; repeat split).
Qed.

(** X7.  Whatever handlers run, the final plan of a class still refers
    to the class, its name (or ['Anonymous']), the properties extracted from
    it and its recognized markers; it has no additional member; and its
    null-validation flag is on exactly when an extracted property carries
    [NonNull]: no handler sets or clears it. *)
Theorem plan_descriptors_are_fixed_at_creation (node : Node) :
  classDeclaration (planFor node) = node /\
  className (planFor node) = classNameOf node /\
  properties (planFor node) = getClassProperties node /\
  decorators (planFor node) = getKnownDecorators node /\
  validateNonNull (planFor node)
  = existsb (fun p => isNonNull p) (getClassProperties node) /\
  additionalMembers (planFor node) = [].
Proof.
  unfold planFor. fold (handlersFor node).
  pose proof (handlersFor_registered node) as Hreg.
  set (start := createPlan node (getClassProperties node) (getKnownDecorators node)).
  assert (Hstart :
            classDeclaration start = node /\
            className start = classNameOf node /\
            properties start = getClassProperties node /\
            decorators start = getKnownDecorators node /\
            validateNonNull start
            = existsb (fun p => isNonNull p) (getClassProperties node) /\
            additionalMembers start = []) by (repeat split).
  clearbody start. revert start Hstart.
  induction (handlersFor node) as [|h hs IH]; intros start Hstart;
    cbn [fold_left]; [exact Hstart|].
  apply IH; [intros h' Hh'; apply Hreg; now right|].
  destruct (registered_handler_keeps_descriptors h start (Hreg h (or_introl eq_refl)))
    as (-> & -> & -> & -> & -> & ->).
  exact Hstart.
Qed.

(** ** The alias marker and the composite marker *)

Lemma sameEffect_refl h : sameEffect h h.
Proof. repeat split. Qed.

Lemma value_is_record : sameEffect ValueHandler RecordHandler.
Proof. repeat split. Qed.

Lemma insertSorted_sameEffect x x' l l' :
  sameEffect x x' ->
  Forall2 sameEffect l l' ->
  Forall2 sameEffect
          (insertSorted (fun a b => (priority b - priority a)%Z) x l)
          (insertSorted (fun a b => (priority b - priority a)%Z) x' l').
Proof.
  intros Hx Hl. induction Hl as [|y y' l l' Hy Hl IH]; cbn [insertSorted].
  - constructor; [exact Hx|constructor].
  - destruct Hx as (Hpx & Hrest). destruct Hy as (Hpy & Hresty).
    rewrite Hpx, Hpy.
    destruct (priority y' - priority x' <=? 0)%Z.
    + constructor; [now split|]. constructor; [now split|exact Hl].
    + constructor; [now split|]. apply IH.
Qed.

Lemma Array_sort_sameEffect l l' :
  Forall2 sameEffect l l' ->
  Forall2 sameEffect
          (Array_sort (fun a b => (priority b - priority a)%Z) l)
          (Array_sort (fun a b => (priority b - priority a)%Z) l').
Proof.
  induction 1 as [|x x' l l' Hx Hl IH]; cbn [Array_sort]; [constructor|].
  now apply insertSorted_sameEffect.
Qed.

Lemma selected_sameEffect names :
  Forall2 sameEffect
          (selectedInMarkerOrder handlerRegistry names)
          (selectedInMarkerOrder handlerRegistry (map aliasName names)).
Proof.
  unfold selectedInMarkerOrder.
  induction names as [|name names IH]; cbn [map flat_map]; [constructor|].
  unfold aliasName at 1. destruct (String.eqb name "Value") eqn:Hv.
  - apply String.eqb_eq in Hv. subst name.
    change (HandlerRegistry.Map_get handlerRegistry "Value") with (Some ValueHandler).
    change (HandlerRegistry.Map_get handlerRegistry "Record") with (Some RecordHandler).
    cbn [app]. constructor; [exact value_is_record|exact IH].
  - destruct (HandlerRegistry.Map_get handlerRegistry name); cbn [app];
      [constructor; [apply sameEffect_refl|exact IH]|exact IH].
Qed.

Lemma fold_sameEffect l l' :
  Forall2 sameEffect l l' ->
  forall plan,
    fold_left (fun plan handler => modifyPlan handler plan) l plan
    = fold_left (fun plan handler => modifyPlan handler plan) l' plan.
Proof.
  induction 1 as [|x x' l l' Hx Hl IH]; intros plan; cbn [fold_left];
    [reflexivity|].
  destruct Hx as (_ & Hm & _). now rewrite Hm, IH.
Qed.

Lemma synthesized_sameEffect l l' :
  Forall2 sameEffect l l' ->
  forall plan, synthesized plan l = synthesized plan l'.
Proof.
  unfold synthesized.
  induction 1 as [|x x' l l' Hx Hl IH]; intros plan; cbn [flat_map];
    [reflexivity|].
  destruct Hx as (_ & _ & Hg). now rewrite Hg, IH.
Qed.

(** X8.  [Value] is an alias of [Record]: with [Value] read as [Record]
    among the markers of a class, the selected handlers run at the same
    priorities, in the same order, take every plan to the same plan and
    generate the same members. *)
Theorem value_marker_is_an_alias_of_record (decoratorNames : list string) :
  let withValue :=
    HandlerRegistry.getHandlersForDecorators handlerRegistry decoratorNames in
  let withRecord :=
    HandlerRegistry.getHandlersForDecorators handlerRegistry
                                             (map aliasName decoratorNames) in
  map priority withValue = map priority withRecord /\
  (forall plan,
      fold_left (fun plan handler => modifyPlan handler plan) withValue plan
      = fold_left (fun plan handler => modifyPlan handler plan) withRecord plan) /\
  (forall plan, synthesized plan withValue = synthesized plan withRecord).
Proof.
  cbv zeta.
  assert (H : Forall2 sameEffect
                (HandlerRegistry.getHandlersForDecorators handlerRegistry decoratorNames)
                (HandlerRegistry.getHandlersForDecorators handlerRegistry
                                                          (map aliasName decoratorNames))).
  { unfold HandlerRegistry.getHandlersForDecorators.
    apply Array_sort_sameEffect. apply selected_sameEffect. }
  split; [|split].
  - induction H as [|x x' l l' Hx Hl IH]; cbn [map]; [reflexivity|].
    destruct Hx as (-> & _). now rewrite IH.
  - now apply fold_sameEffect.
  - now apply synthesized_sameEffect.
Qed.

(** X9.  [Data] is the composite of [AllArgsConstructor], [Getter],
    [Setter], [ToString] and [Equals]: it takes a plan where the five take
    it one after the other, and from that plan it generates the members the
    five generate, in another order (toString, equals, hashCode first). *)
Theorem data_marker_is_the_composite_of_five (plan : TransformationPlan) :
  let composed :=
    modifyPlan EqualsHandler
      (modifyPlan ToStringHandler
         (modifyPlan SetterHandler
            (modifyPlan GetterHandler
               (modifyPlan AllArgsConstructorHandler plan)))) in
  modifyPlan DataHandler plan = composed /\
  Permutation
    (generateMembers DataHandler composed)
    (synthesized composed
       [GetterHandler; SetterHandler; ToStringHandler; EqualsHandler;
        AllArgsConstructorHandler]).
Proof.
  destruct plan. cbv zeta. split; [reflexivity|].
  unfold synthesized. cbn. rewrite app_assoc.
  match goal with
  | |- Permutation (?t :: ?e :: ?h :: ?gs) _ =>
      change (Permutation ([t; e; h] ++ gs) (gs ++ [t; e; h]))
  end.
  apply Permutation_app_comm.
Qed.

(** ** The registry *)

Lemma Map_get_set_same registry key value :
  HandlerRegistry.Map_get (HandlerRegistry.Map_set registry key value) key
  = Some value.
Proof.
  induction registry as [|[k v] rest IH]; cbn [HandlerRegistry.Map_set].
  - cbn. now rewrite String.eqb_refl.
  - destruct (String.eqb k key) eqn:Hk; cbn [HandlerRegistry.Map_get];
      rewrite Hk; [reflexivity|exact IH].
Qed.

Lemma Map_get_set_other registry key value name :
  name <> key ->
  HandlerRegistry.Map_get (HandlerRegistry.Map_set registry key value) name
  = HandlerRegistry.Map_get registry name.
Proof.
  intros Hneq.
  induction registry as [|[k v] rest IH]; cbn [HandlerRegistry.Map_set].
  - cbn. now rewrite (proj2 (String.eqb_neq key name)) by congruence.
  - destruct (String.eqb k key) eqn:Hk; cbn [HandlerRegistry.Map_get].
    + apply String.eqb_eq in Hk. subst k.
      now rewrite (proj2 (String.eqb_neq key name)) by congruence.
    + destruct (String.eqb k name); [reflexivity|exact IH].
Qed.

Lemma Map_set_names registry key value :
  registeredNames (HandlerRegistry.Map_set registry key value)
  = if HandlerRegistry.has registry key then registeredNames registry
    else registeredNames registry ++ [key].
Proof.
  unfold HandlerRegistry.has, registeredNames.
  induction registry as [|[k v] rest IH];
    cbn [HandlerRegistry.Map_set HandlerRegistry.Map_get map fst app];
    [reflexivity|].
  destruct (String.eqb k key); [reflexivity|]. cbn [map fst]. rewrite IH.
  now destruct (HandlerRegistry.Map_get rest key).
Qed.

Lemma has_is_includes registry name :
  HandlerRegistry.has registry name = includes (registeredNames registry) name.
Proof.
  unfold HandlerRegistry.has, registeredNames, includes.
  induction registry as [|[k v] rest IH]; cbn [HandlerRegistry.Map_get map fst existsb];
    [reflexivity|].
  rewrite (String.eqb_sym name k). destruct (String.eqb k name); [reflexivity|exact IH].
Qed.

(** X10.  Registration and lookup: after [register] the registry yields
    the handler under its decorator name and what it yielded before under
    every other name; a name that was registered keeps its place in the
    registration order with the new handler, a new name goes to the end. *)
Theorem register_then_get (registry : HandlerRegistry.t) (handler : DecoratorHandler) :
  let registry' := HandlerRegistry.register registry handler in
  HandlerRegistry.get registry' (decoratorName handler) = Some handler /\
  HandlerRegistry.has registry' (decoratorName handler) = true /\
  (forall name, name <> decoratorName handler ->
                HandlerRegistry.get registry' name = HandlerRegistry.get registry name) /\
  registeredNames registry'
  = (if HandlerRegistry.has registry (decoratorName handler)
     then registeredNames registry
     else registeredNames registry ++ [decoratorName handler]).
Proof.
  cbv zeta. unfold HandlerRegistry.register, HandlerRegistry.get.
  split; [apply Map_get_set_same|]. split.
  - unfold HandlerRegistry.has. now rewrite Map_get_set_same.
  - split; [intros name Hname; now apply Map_get_set_other|apply Map_set_names].
Qed.

Lemma registry_keys_are_names :
  Forall (fun kv => decoratorName (snd kv) = fst kv) handlerRegistry.
Proof. repeat constructor. Qed.

Lemma Map_get_key registry name h :
  Forall (fun kv => decoratorName (snd kv) = fst kv) registry ->
  HandlerRegistry.Map_get registry name = Some h ->
  decoratorName h = name.
Proof.
  induction 1 as [|[k v] rest Hkv _ IH]; cbn [HandlerRegistry.Map_get];
    [discriminate|].
  destruct (String.eqb k name) eqn:Hk; [|exact IH].
  intros [= <-]. apply String.eqb_eq in Hk. now rewrite <- Hk.
Qed.

Lemma getKnownDecorators_known node :
  Forall (fun name => includes KNOWN_CLASS_DECORATORS name = true)
         (getKnownDecorators node).
Proof.
  unfold getKnownDecorators.
  induction (map getDecoratorName (getDecorators node)) as [|o l IH];
    cbn [flat_map]; [constructor|].
  apply Forall_app. split; [|exact IH].
  destruct o as [nm|]; [|constructor].
  destruct (includes KNOWN_CLASS_DECORATORS nm) eqn:Hk; repeat constructor.
  exact Hk.
Qed.

Lemma selected_names names :
  Forall (fun name => includes KNOWN_CLASS_DECORATORS name = true) names ->
  map decoratorName (selectedInMarkerOrder handlerRegistry names) = names.
Proof.
  unfold selectedInMarkerOrder.
  induction 1 as [|name names Hname _ IH]; cbn [map flat_map]; [reflexivity|].
  change KNOWN_CLASS_DECORATORS with (registeredNames handlerRegistry) in Hname.
  rewrite <- has_is_includes in Hname. unfold HandlerRegistry.has in Hname.
  destruct (HandlerRegistry.Map_get handlerRegistry name) as [h|] eqn:Hget;
    [|discriminate Hname].
  cbn [app map]. rewrite IH.
  now rewrite (Map_get_key handlerRegistry name h registry_keys_are_names Hget).
Qed.

(** X11.  The recognized class markers are the names under which a
    handler is registered, in registration order: a name has a handler
    exactly when it is a recognized class marker, the handler found under a
    name answers to that name, and every recognized marker on a class
    selects one handler, its own. *)
Theorem recognized_markers_are_the_registered_names :
  registeredNames handlerRegistry = KNOWN_CLASS_DECORATORS /\
  (forall name,
      HandlerRegistry.has handlerRegistry name
      = includes KNOWN_CLASS_DECORATORS name) /\
  (forall name,
      match HandlerRegistry.get handlerRegistry name with
      | Some h => decoratorName h = name
      | None => includes KNOWN_CLASS_DECORATORS name = false
      end) /\
  (forall node,
      map decoratorName
          (selectedInMarkerOrder handlerRegistry (getKnownDecorators node))
      = getKnownDecorators node) /\
  (forall node,
      List.length (handlersFor node) = List.length (getKnownDecorators node)).
Proof.
  split; [reflexivity|]. split; [intros name; apply has_is_includes|]. split.
  - intros name. unfold HandlerRegistry.get.
    destruct (HandlerRegistry.Map_get handlerRegistry name) as [h|] eqn:Hget.
    + exact (Map_get_key handlerRegistry name h registry_keys_are_names Hget).
    + change KNOWN_CLASS_DECORATORS with (registeredNames handlerRegistry).
      rewrite <- has_is_includes. unfold HandlerRegistry.has. now rewrite Hget.
  - split.
    + intros node. apply selected_names, getKnownDecorators_known.
    + intros node. unfold handlersFor, HandlerRegistry.getHandlersForDecorators.
      rewrite <- (Permutation_length (Array_sort_perm _)).
      fold (selectedInMarkerOrder handlerRegistry (getKnownDecorators node)).
      rewrite <- (length_map decoratorName).
      now rewrite (selected_names _ (getKnownDecorators_known node)).
Qed.

(** ** The immutability markers *)

Lemma marker_selects_handler node name h :
  In name (getKnownDecorators node) ->
  HandlerRegistry.Map_get handlerRegistry name = Some h ->
  In h (handlersFor node).
Proof.
  intros Hname Hget. unfold handlersFor, HandlerRegistry.getHandlersForDecorators.
  apply (Permutation_in _ (Array_sort_perm _)).
  apply in_flat_map. exists (Some h). split; [|now left].
  rewrite <- Hget. now apply in_map.
Qed.

Lemma marked_class_is_rewritten node :
  getKnownDecorators node <> [] ->
  transformClass node
  = Some (executeTransformation (planFor node) (handlersFor node) node).
Proof.
  intros Hknown. destruct (transformClass_cases node) as [Hno|Hyes]; [|exact Hyes].
  unfold transformClass in Hno.
  destruct (getKnownDecorators node); [congruence|discriminate Hno].
Qed.

Lemma immutable_plan node :
  In "Record" (getKnownDecorators node) \/ In "Value" (getKnownDecorators node) ->
  generateConstructor (planFor node) = true /\
  freezeInstance (planFor node) = true /\
  makeReadonly (planFor node) = true /\
  generateToString (planFor node) = true.
Proof.
  intros Hmarker.
  assert (Hh : exists h, In h (handlersFor node) /\
                         flagsSetBy h = flagsSetBy RecordHandler).
  { destruct Hmarker as [H|H].
    - exists RecordHandler. split; [|reflexivity].
      now apply (marker_selects_handler node "Record").
    - exists ValueHandler. split; [|reflexivity].
      now apply (marker_selects_handler node "Value"). }
  destruct Hh as (h & Hin & Hflags).
  assert (Hon : forall i, nth i (flagsSetBy RecordHandler) false = true ->
                          flagAt i (planFor node) = true).
  { intros i Hi. rewrite planFor_flag. apply existsb_exists.
    exists h. split; [exact Hin|now rewrite Hflags]. }
  split; [exact (Hon 0%nat eq_refl)|]. split; [exact (Hon 1%nat eq_refl)|].
  split; [exact (Hon 2%nat eq_refl)|exact (Hon 3%nat eq_refl)].
Qed.

(** X12.  On a class that carries [Record] or [Value], however many other
    markers it carries: the plan asks for a constructor, a freeze,
    read-only fields and [toString]; the class is rewritten; every property
    of the original has a copy in the rewritten class that is read-only;
    and when the original has no constructor, the rewritten class starts
    with the generated constructor, whose body ends with
    [Object.freeze(this)]. *)
Theorem immutable_markers_make_fields_readonly ms nm tp hc members :
  let node := ClassDeclaration ms nm tp hc members in
  In "Record" (getKnownDecorators node) \/ In "Value" (getKnownDecorators node) ->
  (generateConstructor (planFor node) = true /\
   freezeInstance (planFor node) = true /\
   makeReadonly (planFor node) = true /\
   generateToString (planFor node) = true) /\
  exists out,
    transformClass node = Some out /\
    (forall m, In m members -> isPropertyDeclaration m = true ->
               exists copy,
                 In copy (classMembers out) /\
                 withoutModifiers copy = withoutModifiers m /\
                 hasModifier ReadonlyKeyword copy = true) /\
    (hasConstructor node = false ->
     (exists rest, classMembers out = generatedConstructor (planFor node) :: rest) /\
     exists before,
       ConstructorGenerator.constructorBody (planFor node)
                                            (additionalStatementsFor (planFor node))
       = before ++ [generateFreezeStatement]).
Proof.
  intros node Hmarker.
  pose proof (immutable_plan node Hmarker) as Hplan.
  destruct Hplan as (Hctor & Hfreeze & Hro & Hts).
  split; [now repeat split|].
  eexists. split.
  { apply marked_class_is_rewritten. intros Hnil. rewrite Hnil in Hmarker.
    destruct Hmarker as [[]|[]]. }
  assert (Hmem : classMembers
                   (executeTransformation (planFor node) (handlersFor node) node)
                 = (if generateConstructor (planFor node) && negb (hasConstructor node)
                    then [generatedConstructor (planFor node)] else [])
                     ++ flat_map (copyMember (planFor node) []) members
                     ++ filter (fun m => negb (suppressed node m))
                               (synthesized (planFor node) (handlersFor node))).
  { unfold node at 3. rewrite executeTransformation_shape. fold node.
    cbn [classMembers]. apply rewrittenMembers_parts. }
  rewrite Hmem. split.
  - intros m Hm Hp.
    destruct (copyMember_cases (planFor node) m)
      as [(_ & copy & Hc & _ & Hwm & _ & Hcro)|[(Hc0 & _)|(Ho & _)]].
    + exists copy. split; [|split; [exact Hwm|exact (Hcro Hro)]].
      apply in_or_app; right. apply in_or_app; left.
      apply in_flat_map. exists m. split; [exact Hm|]. rewrite Hc. now left.
    + destruct m; try discriminate Hc0; discriminate Hp.
    + destruct (isOtherMember_exclusive m Ho) as [Hp0 _]. congruence.
  - intros Hnone. rewrite Hctor, Hnone. cbn [andb negb app]. split.
    + eexists. reflexivity.
    + unfold ConstructorGenerator.constructorBody, additionalStatementsFor.
      rewrite Hfreeze. rewrite !app_assoc. eexists. reflexivity.
Qed.

Lemma immutable_markers_make_fields_readonly_witness :
  generateConstructor (planFor nonNullRecord) = true /\
  freezeInstance (planFor nonNullRecord) = true /\
  makeReadonly (planFor nonNullRecord) = true /\
  generateToString (planFor nonNullRecord) = true.
Proof.
  refine (proj1 (immutable_markers_make_fields_readonly
                   [marker "Record"] (Some "User") None None
                   [ field ["NonNull"] "id" "number"; field [] "name" "string" ] _)).
  left. left. reflexivity.
Defined.

(** ** Trees without marked classes *)

Lemma visit_children_fixed l :
  Forall (fun c => containsRewritten c = false -> visitor c = c) l ->
  existsb containsRewritten l = false ->
  map fst (map visit l) = l.
Proof.
  induction 1 as [|c l Hc _ IH]; cbn [existsb map]; [reflexivity|].
  intros H. apply orb_false_iff in H. destruct H as [H1 H2].
  rewrite IH by exact H2. f_equal. exact (Hc H1).
Qed.

Lemma unmarked_tree_fixed n : containsRewritten n = false -> visitor n = n.
Proof.
  induction n as [n IH] using Node_children_ind.
  destruct n as [ms nm tp hc members|ms nm q ty init|ms ps body
                |ms nm ps ty body|kind children|s|e];
    cbn [containsRewritten childrenOf] in *; intros H;
    apply orb_false_iff in H; destruct H as [Hr H]; unfold visitor; cbn [visit].
  - unfold isRewritten in Hr. cbn [isClassDeclaration andb] in Hr.
    destruct (transformClass (ClassDeclaration ms nm tp hc members));
      [discriminate Hr|].
    cbn [fst]. now rewrite (visit_children_fixed members IH H).
  - destruct init as [i|]; [|reflexivity]. cbn [fst].
    apply Forall_inv in IH. fold (visitor i). now rewrite (IH H).
  - cbn [fst]. now rewrite (visit_children_fixed body IH H).
  - cbn [fst]. now rewrite (visit_children_fixed body IH H).
  - cbn [fst]. now rewrite (visit_children_fixed children IH H).
  - reflexivity.
  - reflexivity.
Qed.

(** X13.  A tree none of whose class declarations is one the rewriter
    rewrites comes out of the transformer as it went in. *)
Theorem unmarked_tree_is_left_alone (sourceFile : Node) :
  containsRewritten sourceFile = false ->
  transform sourceFile = sourceFile.
Proof. apply unmarked_tree_fixed. Qed.

Lemma unmarked_tree_is_left_alone_witness :
  transform plainSourceFile = plainSourceFile.
Proof.
  apply (unmarked_tree_is_left_alone plainSourceFile). reflexivity.
Defined.

(** ** The generated [toString], getters and setters *)

Lemma string_append_assoc (a b c : string) :
  String.append (String.append a b) c = String.append a (String.append b c).
Proof. induction a as [|x a IH]; cbn [String.append]; [reflexivity|now rewrite IH]. Qed.

Lemma string_append_empty (a : string) : String.append a "" = a.
Proof. induction a as [|x a IH]; cbn [String.append]; [reflexivity|now rewrite IH]. Qed.

Lemma Forall2_map_right {A B : Type} (P : A -> B -> Prop) (f : A -> B) l :
  (forall x, In x l -> P x (f x)) -> Forall2 P l (map f l).
Proof.
  induction l as [|x l IH]; intros H; cbn [map]; constructor.
  - apply H. now left.
  - apply IH. intros y Hy. apply H. now right.
Qed.

Section AccessorBehaviour.

Context {num : Type} {jsNumber : JsNumber num}.

Lemma evaluate_template_cons env (this : Value num) head o literal rest :
  evaluate env this (TemplateExpression head ((o, literal) :: rest))
  = match evaluate env this o with
    | Some v =>
        evaluate env this
          (TemplateExpression
             (String.append head (String.append (toStringValue v) literal)) rest)
    | None => None
    end.
Proof. reflexivity. Qed.

Lemma evaluate_this_field env (r : Receiver num) f :
  evaluate env (thisValue r) (PropertyAccessExpression This f)
  = Some (fieldOf (selfProps r) f).
Proof. reflexivity. Qed.

Lemma evaluate_template env (r : Receiver num) rest :
  forall f head,
    evaluate env (thisValue r)
      (TemplateExpression (String.append head (String.append f "="))
                          (toStringSpans (f :: rest)))
    = Some (VString
              (String.append head
                 (String.append (joinFields (selfProps r) (f :: rest)) ")"))).
Proof.
  induction rest as [|g rest IH]; intros f head.
  - cbn [toStringSpans]. rewrite evaluate_template_cons, evaluate_this_field.
    cbn [evaluate joinFields]. do 2 f_equal.
    rewrite string_append_empty, !string_append_assoc. reflexivity.
  - change (toStringSpans (f :: g :: rest))
      with ((PropertyAccessExpression This f,
             String.append ", " (String.append g "="))
              :: toStringSpans (g :: rest)).
    rewrite evaluate_template_cons, evaluate_this_field.
    replace (String.append (String.append head (String.append f "="))
               (String.append (toStringValue (fieldOf (selfProps r) f))
                  (String.append ", " (String.append g "="))))
      with (String.append
              (String.append head
                 (String.append f
                    (String.append "="
                       (String.append (toStringValue (fieldOf (selfProps r) f)) ", "))))
              (String.append g "="))
      by (rewrite !string_append_assoc; reflexivity).
    rewrite IH. do 2 f_equal.
    change (joinFields (selfProps r) (f :: g :: rest))
      with (String.append f
              (String.append "="
                 (String.append (toStringValue (fieldOf (selfProps r) f))
                    (String.append ", " (joinFields (selfProps r) (g :: rest)))))).
    rewrite !string_append_assoc. reflexivity.
Qed.

Lemma call_generated_toString plan (r : Receiver num) args :
  call (MethodGenerator.generateToString plan) r args
  = Returned
      (VString (toStringResult (className plan) (map propName (properties plan))
                               (selfProps r)))
      r.
Proof.
  unfold MethodGenerator.generateToString, createMethodDeclaration, call.
  cbn [bodyStatements option_map map parameterName distinct bindParameters
       executeAll].
  rewrite execute_block. unfold createReturnStatement, toStringResult.
  cbn [executeAll execute].
  destruct (map propName (properties plan)) as [|f rest];
    unfold createToStringTemplateLiteral; [reflexivity|].
  replace (String.append (className plan)
             (String.append "(" (String.append f "=")))
    with (String.append (String.append (className plan) "(") (String.append f "="))
    by (rewrite !string_append_assoc; reflexivity).
  rewrite evaluate_template. rewrite !string_append_assoc. reflexivity.
Qed.

Lemma call_generated_getter (p : PropertyInfo) (r : Receiver num) args :
  call (createMethodDeclaration
          (String.append "get" (capitalize (propName p))) [] (propType p)
          (Block [ReturnStatement (PropertyAccessExpression This (propName p))]) [])
       r args
  = Returned (fieldOf (selfProps r) (propName p)) r.
Proof. reflexivity. Qed.

Lemma call_generated_setter (p : PropertyInfo) (r : Receiver num) args :
  call (createMethodDeclaration
          (String.append "set" (capitalize (propName p)))
          [{| parameterName := propName p; parameterType := propType p |}]
          (Some (KeywordTypeNode VoidKeyword))
          (Block [ExpressionStatement
                    (BinaryExpression
                       (PropertyAccessExpression This (propName p))
                       EqualsToken
                       (Identifier (propName p)))]) [])
       r args
  = if selfFrozen r then Thrown frozenError r
    else Returned VUndefined
           (mkReceiver (selfRef r) (selfClasses r) (selfDescription r)
                       (setProperty (propName p) (argumentAt args 0) (selfProps r))
                       false).
Proof.
  unfold createMethodDeclaration, call.
  cbn [bodyStatements option_map map parameterName distinct includes existsb
       negb andb bindParameters executeAll].
  rewrite execute_block.
  cbn [executeAll execute executeExpression asAssignment evaluate lookup].
  rewrite String.eqb_refl.
  replace (match args with a :: _ => a | [] => VUndefined end)
    with (argumentAt args 0) by (now destruct args).
  now destruct (selfFrozen r).
Qed.

End AccessorBehaviour.

(** X14.  The generated [toString()] returns the class name followed by
    the fields in declaration order as [name=value], separated by [", "]
    and enclosed in parentheses, each value as [String(value)]; for a
    class without fields it returns the class name followed by [()].  It
    ignores its arguments and leaves the receiver as it was. *)
Theorem generated_toString_lists_fields_in_order
        (num : Type) (jsNumber : JsNumber num) (plan : TransformationPlan) :
  (forall (r : Receiver num) args,
      call (MethodGenerator.generateToString plan) r args
      = Returned
          (VString (toStringResult (className plan)
                                   (map propName (properties plan)) (selfProps r)))
          r) /\
  (forall props : list (string * Value num),
      toStringResult (className plan) [] props
      = String.append (className plan) "()") /\
  (forall (props : list (string * Value num)) f g rest,
      joinFields props (f :: g :: rest)
      = String.append f
          (String.append "="
             (String.append (toStringValue (fieldOf props f))
                (String.append ", " (joinFields props (g :: rest)))))) /\
  (forall (props : list (string * Value num)) f,
      joinFields props [f]
      = String.append f (String.append "=" (toStringValue (fieldOf props f)))).
Proof.
  split; [intros r args; apply call_generated_toString|].
  split; [reflexivity|]. split; [reflexivity|].
  intros props f. cbn [joinFields]. now rewrite string_append_empty.
Qed.

(** X15.  There is one generated getter per property, in declaration
    order; the getter of [f] is named [get] followed by the capitalized
    name, returns the value of [this.f] ([undefined] when the receiver has
    no such property) and leaves the receiver as it was. *)
Theorem generated_getters_read_their_field (plan : TransformationPlan) :
  Forall2
    (fun p getter =>
       memberName getter = Some (String.append "get" (capitalize (propName p))) /\
       forall (num : Type) (jsNumber : JsNumber num) (r : Receiver num) args,
         call getter r args = Returned (fieldOf (selfProps r) (propName p)) r)
    (properties plan) (MethodGenerator.generateGetters plan).
Proof.
  unfold MethodGenerator.generateGetters. apply Forall2_map_right.
  intros p _. split; [reflexivity|]. intros num jsNumber r args.
  apply call_generated_getter.
Qed.

(** X16.  There is one generated setter per property that is not declared
    [readonly], in declaration order, and none for the others.  The setter
    of [f] is named [set] followed by the capitalized name; on a receiver
    that is not frozen it sets [f] to its first argument ([undefined] when
    missing) and leaves every other field as it was; on a frozen receiver
    it throws and changes nothing. *)
Theorem generated_setters_assign_unless_frozen (plan : TransformationPlan) :
  Forall2
    (fun p setter =>
       isReadonly p = false /\
       memberName setter = Some (String.append "set" (capitalize (propName p))) /\
       forall (num : Type) (jsNumber : JsNumber num) (r : Receiver num) args,
         (selfFrozen r = true -> call setter r args = Thrown frozenError r) /\
         (selfFrozen r = false ->
          exists r',
            call setter r args = Returned VUndefined r' /\
            selfRef r' = selfRef r /\ selfFrozen r' = false /\
            fieldOf (selfProps r') (propName p) = argumentAt args 0 /\
            (forall g, g <> propName p ->
                       fieldOf (selfProps r') g = fieldOf (selfProps r) g)))
    (filter (fun p => negb (isReadonly p)) (properties plan))
    (MethodGenerator.generateSetters plan).
Proof.
  unfold MethodGenerator.generateSetters. apply Forall2_map_right.
  intros p Hp. apply filter_In in Hp. destruct Hp as [_ Hro].
  apply negb_true_iff in Hro. split; [exact Hro|]. split; [reflexivity|].
  intros num jsNumber r args. rewrite call_generated_setter. split; intros Hf;
    rewrite Hf; [reflexivity|].
  eexists. split; [reflexivity|]. cbn [selfRef selfFrozen selfProps].
  split; [reflexivity|]. split; [reflexivity|]. unfold fieldOf. split.
  - now rewrite lookup_setProperty_same.
  - intros g Hg. now rewrite lookup_setProperty_other.
Qed.

(** ** Instances built by the generated constructor *)


Section InstanceBehaviour.

Context {num : Type} {jsNumber : JsNumber num}.



End InstanceBehaviour.





(** ** The contract of [equals] and [hashCode] *)

Section EqualityContract.

Context {num : Type} {jsNumber : JsNumber num}.



End EqualityContract.








(** ** Property descriptors *)

Lemma includes_decoratorNames ds name :
  includes (decoratorNamesOf ds) name
  = existsb (fun d => match getDecoratorName d with
                      | Some nm => String.eqb nm name
                      | None => false
                      end) ds.
Proof.
  unfold includes, decoratorNamesOf.
  induction ds as [|d ds IH]; [reflexivity|].
  cbn [map flat_map existsb]. rewrite existsb_app, IH.
  destruct (getDecoratorName d) as [nm|]; cbn [existsb]; [|reflexivity].
  now rewrite orb_false_r, String.eqb_sym.
Qed.

Lemma propertyInfoOf_cases member :
  (isInstanceField member = false /\ propertyInfoOf member = None) \/
  (isInstanceField member = true /\
   exists info,
     propertyInfoOf member = Some info /\
     memberName member = Some (propName info) /\
     isNonNull info = hasDecorator member "NonNull" /\
     hasGetter info = hasDecorator member "Getter" /\
     hasSetter info = hasDecorator member "Setter" /\
     isReadonly info = hasModifier ReadonlyKeyword member /\
     isPrivate info = hasModifier PrivateKeyword member /\
     match member with
     | PropertyDeclaration _ _ question ty init =>
         propType info = ty /\ isOptional info = question /\
         hasInitializer info = match init with Some _ => true | None => false end
     | _ => False
     end).
Proof.
  destruct member as [ms nm tp hc members|ms nm q ty init|ms ps body
                     |ms nm ps ty body|kind children|s|e];
    try (left; split; reflexivity).
  destruct nm as [text|]; [|left; split; reflexivity].
  cbn [isInstanceField propertyInfoOf].
  destruct (existsb (kindIs StaticKeyword)
                    (ts_getModifiers (PropertyDeclaration ms (IdentifierName text) q ty init)));
    [left; split; reflexivity|].
  right. split; [reflexivity|]. eexists. split; [reflexivity|].
  cbn [propName isNonNull hasGetter hasSetter isReadonly isPrivate propType
       isOptional hasInitializer memberName].
  unfold hasDecorator, getDecorators, hasModifier. cbn [ts_canHaveDecorators negb].
  rewrite !includes_decoratorNames. repeat split; reflexivity.
Qed.

(** X22.  The property descriptors of a class are in one-to-one,
    order-preserving correspondence with its members that are property
    declarations with an identifier for name and without [static]; methods,
    constructors, static fields and fields with another kind of name have
    no descriptor.  The descriptor of a field records its name, type,
    question mark and the presence of an initializer, whether it is
    [readonly] or [private], and whether it carries [@NonNull], [@Getter]
    or [@Setter], as [hasDecorator] answers for the field. *)
Theorem class_properties_describe_the_instance_fields (node : Node) :
  Forall2
    (fun member info =>
       memberName member = Some (propName info) /\
       isNonNull info = hasDecorator member "NonNull" /\
       hasGetter info = hasDecorator member "Getter" /\
       hasSetter info = hasDecorator member "Setter" /\
       isReadonly info = hasModifier ReadonlyKeyword member /\
       isPrivate info = hasModifier PrivateKeyword member /\
       match member with
       | PropertyDeclaration _ _ question ty init =>
           propType info = ty /\ isOptional info = question /\
           hasInitializer info = match init with Some _ => true | None => false end
       | _ => False
       end)
    (filter isInstanceField (classMembers node))
    (getClassProperties node).
Proof.
  rewrite getClassProperties_flat_map.
  induction (classMembers node) as [|m l IH]; [constructor|].
  cbn [filter flat_map].
  destruct (propertyInfoOf_cases m) as [[Hno Hnone]|[Hyes [info [Hsome Hinfo]]]].
  - now rewrite Hno, Hnone.
  - rewrite Hyes, Hsome. cbn [app]. constructor; [exact Hinfo|exact IH].
Qed.

(** ** Method names *)




(** ** The constructor type of a plan *)

Lemma registered_constructor_type h plan :
  In h (map snd handlerRegistry) ->
  constructorType (modifyPlan h plan) = nextConstructorType (constructorType plan) h.
Proof.
  intros Hin. each_registered_handler Hin ltac:(destruct plan; reflexivity).
Qed.

Lemma fold_constructor_type handlers :
  (forall h, In h handlers -> In h (map snd handlerRegistry)) ->
  forall plan,
    constructorType (fold_left (fun plan handler => modifyPlan handler plan)
                               handlers plan)
    = fold_left nextConstructorType handlers (constructorType plan).
Proof.
  induction handlers as [|h hs IH]; intros Hreg plan; cbn [fold_left]; [reflexivity|].
  rewrite IH by (intros h' Hh'; apply Hreg; now right).
  now rewrite (registered_constructor_type h plan (Hreg h (or_introl eq_refl))).
Qed.

Lemma planFor_constructor_type node :
  constructorType (planFor node)
  = fold_left nextConstructorType (handlersFor node) all.
Proof.
  unfold planFor. fold (handlersFor node).
  now rewrite (fold_constructor_type (handlersFor node) (handlersFor_registered node)).
Qed.

Lemma registered_builder h :
  In h (map snd handlerRegistry) ->
  decoratorName h = "Builder" ->
  (priority h < 95)%Z /\ constructorTypeSetBy h = Some all.
Proof.
  intros Hin Hname.
  each_registered_handler Hin ltac:(first [discriminate Hname | split; reflexivity]).
Qed.

Lemma registered_low_priority h :
  In h (map snd handlerRegistry) ->
  (priority h < 95)%Z ->
  forall t, nextConstructorType t h = t \/ decoratorName h = "Builder".
Proof.
  intros Hin Hlow t.
  each_registered_handler Hin
    ltac:(first [ left; reflexivity | right; reflexivity
                | exfalso; vm_compute in Hlow; discriminate Hlow ]).
Qed.

Lemma registered_constructor_handler h :
  In h (map snd handlerRegistry) ->
  hasPriority 95 h = true ->
  forall t, constructorTypeSetBy h = Some (nextConstructorType t h).
Proof.
  intros Hin Hp t.
  each_registered_handler Hin ltac:(first [discriminate Hp | reflexivity]).
Qed.

Lemma fold_low_priority_after_builder l :
  (forall h, In h l -> In h (map snd handlerRegistry) /\ (priority h < 95)%Z) ->
  fold_left nextConstructorType l all = all.
Proof.
  induction l as [|h l IH]; intros Hl; cbn [fold_left]; [reflexivity|].
  destruct (Hl h (or_introl eq_refl)) as [Hreg Hlow].
  replace (nextConstructorType all h) with all.
  - apply IH. intros x Hx. apply Hl. now right.
  - destruct (registered_low_priority h Hreg Hlow all) as [Hkeep|Hb];
      [now rewrite Hkeep|].
    unfold nextConstructorType.
    now rewrite (proj2 (registered_builder h Hreg Hb)).
Qed.

Lemma fold_low_priority_without_builder l :
  (forall h, In h l ->
             In h (map snd handlerRegistry) /\ (priority h < 95)%Z /\
             decoratorName h <> "Builder") ->
  forall t, fold_left nextConstructorType l t = t.
Proof.
  induction l as [|h l IH]; intros Hl t; cbn [fold_left]; [reflexivity|].
  destruct (Hl h (or_introl eq_refl)) as [Hreg [Hlow Hnb]].
  destruct (registered_low_priority h Hreg Hlow t) as [Hkeep|Hb]; [|contradiction].
  rewrite Hkeep. apply IH. intros x Hx. apply Hl. now right.
Qed.

Lemma sorted_fold_with_builder l :
  StronglySorted priorityOrder l ->
  (forall h, In h l -> In h (map snd handlerRegistry)) ->
  (exists h, In h l /\ decoratorName h = "Builder") ->
  forall t, fold_left nextConstructorType l t = all.
Proof.
  induction 1 as [|x l Hsorted IH Hx]; intros Hreg [h [Hin Hname]] t;
    [destruct Hin|].
  cbn [fold_left].
  destruct (string_dec (decoratorName x) "Builder") as [Hxb|Hxb].
  - destruct (registered_builder x (Hreg x (or_introl eq_refl)) Hxb) as [Hlow Hset].
    unfold nextConstructorType at 2. rewrite Hset.
    apply fold_low_priority_after_builder. intros y Hy.
    split; [apply Hreg; now right|].
    rewrite Forall_forall in Hx. specialize (Hx y Hy).
    unfold priorityOrder in Hx. lia.
  - apply IH.
    + intros y Hy. apply Hreg. now right.
    + exists h. split; [|exact Hname].
      destruct Hin as [<-|Hin]; [contradiction|exact Hin].
Qed.

Lemma sorted_fold_last_constructor_handler l :
  StronglySorted priorityOrder l ->
  (forall h, In h l -> In h (map snd handlerRegistry)) ->
  (forall h, In h l -> decoratorName h <> "Builder") ->
  forall earlier h t,
    filter (hasPriority 95) l = earlier ++ [h] ->
    constructorTypeSetBy h = Some (fold_left nextConstructorType l t).
Proof.
  induction 1 as [|x l Hsorted IH Hx]; intros Hreg Hnb earlier h t Hfilter.
  - destruct earlier; discriminate Hfilter.
  - cbn [filter] in Hfilter. cbn [fold_left].
    assert (Hreg' : forall y, In y l -> In y (map snd handlerRegistry))
      by (intros y Hy; apply Hreg; now right).
    assert (Hnb' : forall y, In y l -> decoratorName y <> "Builder")
      by (intros y Hy; apply Hnb; now right).
    destruct (hasPriority 95 x) eqn:Hp; [|now apply (IH Hreg' Hnb' earlier)].
    destruct (filter (hasPriority 95) l) as [|y ys] eqn:Hrest.
    + destruct earlier as [|e [|e' earlier]]; try discriminate Hfilter.
      injection Hfilter as <-.
      rewrite fold_low_priority_without_builder.
      * apply registered_constructor_handler; [apply Hreg; now left|exact Hp].
      * intros y Hy. split; [now apply Hreg'|]. split; [|now apply Hnb'].
        rewrite Forall_forall in Hx. specialize (Hx y Hy).
        unfold priorityOrder in Hx. unfold hasPriority in Hp.
        apply Z.eqb_eq in Hp.
        assert (Hy95 : hasPriority 95 y = false).
        { destruct (hasPriority 95 y) eqn:Hy95; [|reflexivity].
          assert (Hin : In y (filter (hasPriority 95) l))
            by (apply filter_In; now split).
          rewrite Hrest in Hin. destruct Hin. }
        unfold hasPriority in Hy95. apply Z.eqb_neq in Hy95. lia.
    + destruct earlier as [|e earlier]; [destruct ys; discriminate Hfilter|].
      injection Hfilter as <- Hfilter.
      now apply (IH Hreg' Hnb' earlier).
Qed.

Lemma selected_handler_name node h :
  In h (handlersFor node) -> In (decoratorName h) (getKnownDecorators node).
Proof.
  intros Hin. unfold handlersFor, HandlerRegistry.getHandlersForDecorators in Hin.
  apply (Permutation_in _ (Permutation_sym (Array_sort_perm _))) in Hin.
  rewrite <- (selected_names _ (getKnownDecorators_known node)).
  apply in_map. exact Hin.
Qed.

(** X24.  The constructor type of the final plan is decided by the last
    selected handler, in running order, that writes one: it starts as
    [all], and each handler either overwrites it or leaves it.  Hence a
    class marked [@Builder] always gets the all-fields constructor, whatever
    its other markers, since the builder handler runs after every other
    handler that writes a constructor type; and without [@Builder], when the
    class carries [@NoArgsConstructor], [@AllArgsConstructor] or
    [@RequiredArgsConstructor], the last of these in marker order decides,
    also against [@Record], [@Value] and [@Data]. *)
Theorem constructor_type_is_decided_by_the_last_writer (node : Node) :
  constructorType (planFor node)
  = fold_left nextConstructorType (handlersFor node) all /\
  Forall (fun h => forall plan,
              constructorType (modifyPlan h plan)
              = nextConstructorType (constructorType plan) h)
         (map snd handlerRegistry) /\
  (In "Builder" (getKnownDecorators node) ->
   constructorType (planFor node) = all) /\
  (~ In "Builder" (getKnownDecorators node) ->
   forall earlier h,
     filter (hasPriority 95)
            (selectedInMarkerOrder handlerRegistry (getKnownDecorators node))
     = earlier ++ [h] ->
     constructorTypeSetBy h = Some (constructorType (planFor node))).
Proof.
  split; [apply planFor_constructor_type|]. split; [|split].
  - apply Forall_forall. intros h Hh plan. now apply registered_constructor_type.
  - intros Hb. rewrite planFor_constructor_type.
    apply sorted_fold_with_builder.
    + apply Array_sort_sorted.
    + apply handlersFor_registered.
    + exists BuilderHandler. split; [|reflexivity].
      now apply (marker_selects_handler node "Builder").
  - intros Hnb earlier h Hfilter. rewrite planFor_constructor_type.
    apply (sorted_fold_last_constructor_handler (handlersFor node)) with (earlier := earlier).
    + apply Array_sort_sorted.
    + apply handlersFor_registered.
    + intros x Hx Hname. apply Hnb. rewrite <- Hname.
      now apply selected_handler_name.
    + unfold handlersFor, HandlerRegistry.getHandlersForDecorators.
      rewrite Array_sort_stable. exact Hfilter.
Qed.
